(** * Misirlou front end: view-state derivation and route-driven loading

    A shallow embedding of the container and presentational components of
    the Misirlou browser client: the selectors that read the store
    ([selector], [getQuery], [getSearchResults], [getState]), the lifecycle
    hooks of [LandingPage] and [SearchPageContainer], and the render
    functions of [ManifestDisplay], [LandingPage],
    [ManifestCascadeItemLabel] and [Thumbnail].

    Conventions.
    - A JavaScript value that is a string or [undefined] is an
      [option string]; an object or [null]/[undefined] is an [option] of the
      object's type.  Truthiness is written out ([truthy]): [undefined] and
      the empty string are falsy, every object is truthy.
    - [dispatch] appends an action descriptor to the log of dispatched
      actions; the store, its reducers and the network layer are outside
      this code.
    - A rendered tree is an [Element]; a child written [{c && <X/>}] is
      present in the list of children exactly when [c] is truthy. *)

From stdpp Require Import base option strings list gmap.

Set Default Proof Using "Type".
Set Warnings "-register-all".

(** ** JavaScript values *)

(** [!!v] for a value that is a string or [undefined]. *)
Definition truthy (v : option string) : bool :=
  match v with
  | Some s => negb (String.eqb s EmptyString)
  | None => false
  end.

(** [a !== b] on values that are strings or [undefined]. *)
Definition strict_ne (a b : option string) : bool :=
  negb (bool_decide (a = b)).

(** The completion of a JavaScript call: a normal return or a thrown
    [TypeError] (a property read on [null] or [undefined]). *)
Inductive Completion (A : Type) : Type :=
| Normal (a : A)
| Throw (reason : string).
Arguments Normal {A} a.
Arguments Throw {A} reason.

Definition completion_bind {A B} (c : Completion A) (k : A -> Completion B)
  : Completion B :=
  match c with
  | Normal a => k a
  | Throw r => Throw r
  end.

#[global] Instance completion_ret : MRet Completion := fun _ a => Normal a.
#[global] Instance completion_mbind : MBind Completion :=
  fun _ _ k c => completion_bind c k.

(** [o.p] where [o] may be [null] or [undefined]: reading a property of a
    missing object throws. *)
Definition get_prop {O A} (o : option O) (p : O -> A) : Completion A :=
  match o with
  | Some obj => Normal (p obj)
  | None => Throw "TypeError: cannot read a property of null or undefined"
  end.

(** [!!o] for a value that is an object, [null] or [undefined]. *)
Definition present {A} (o : option A) : bool :=
  match o with
  | Some _ => true
  | None => false
  end.

(** ** Asynchronous resources *)

(** Modelled from the spec: the constants of [async-request-status], a
    module of the front end that the views import. *)
Inductive AsyncRequestStatus : Type := PENDING | SUCCESS | ERROR.

#[global] Instance AsyncRequestStatus_eq_dec : EqDecision AsyncRequestStatus.
Proof. solve_decision. Defined.

(** Modelled from the spec: the record behind [ManifestResource] and
    [AsyncStatusRecord] ([{ status, value: T|null, error: ErrorInfo|null }]).
    The three fields are independent, as in a JavaScript record. *)
Record AsyncResource (T E : Type) : Type := mkResource {
  status : AsyncRequestStatus;
  value : option T;
  error : option E
}.
Arguments mkResource {T E} _ _ _.
Arguments status {T E} _.
Arguments value {T E} _.
Arguments error {T E} _.

(** Modelled from the spec: the invariant of the data model, "exactly one of
    [value]/[error] is populated, and only when status is SUCCESS/ERROR
    respectively". *)
Definition resource_inv {T E} (r : AsyncResource T E) : Prop :=
  match status r with
  | PENDING => value r = None /\ error r = None
  | SUCCESS => is_Some (value r) /\ error r = None
  | ERROR => value r = None /\ is_Some (error r)
  end.

(** ** Routing state *)

Module Route.

(** [location.query]: the parsed query string, of which the views read [q]
    (the search query) and [m] (the manifest flag). *)
Record Query : Type := mkQuery {
  q : option string;
  m : option string
}.

Record Location : Type := mkLocation {
  pathname : string;
  query : Query
}.

(** [state.router] *)
Record Router : Type := mkRouter {
  location : Location
}.

(** [props.params] of a routed component: [manifestId] is bound by the
    route [/manifests/:manifestId] and is [undefined] on [/]. *)
Record Params : Type := mkParams {
  manifestId : option string
}.

#[global] Instance Query_eq_dec : EqDecision Query.
Proof. solve_decision. Defined.

End Route.

(** ** Store state and actions *)

Section Store.
Context {ManifestInfo SearchResult ErrorInfo : Type}.

(** The slices of the global state read by the selectors.  [manifests] and
    [search] are Immutable maps keyed by manifest id and by query. *)
Record State : Type := mkState {
  manifests : gmap string (AsyncResource ManifestInfo ErrorInfo);
  search : gmap string (AsyncResource SearchResult ErrorInfo);
  router : Route.Router
}.

(** [map.get(key)] where the key may be [undefined]: the maps hold string
    keys only, so an [undefined] key finds nothing. *)
Definition Map_get {V} (mp : gmap string V) (key : option string) : option V :=
  match key with
  | Some k => mp !! k
  | None => None
  end.

End Store.
Arguments State : clear implicits.

(** Modelled from the spec: the action descriptors built by the action
    creators [ManifestActions.request({ id })], [Search.request({ query })]
    and by the router's [replaceState(null, pathname, query)], which the
    containers import.  A descriptor carries the arguments it was built
    from, whatever they are. *)
Inductive Action : Type :=
| ManifestRequest (id : option string)
| SearchRequest (query : option string)
| ReplaceState (pathname : string) (query : option Route.Query).

#[global] Instance Action_eq_dec : EqDecision Action.
Proof. solve_decision. Defined.

(** Code that dispatches threads the log of dispatched actions. *)
Definition Dispatch (A : Type) : Type := list Action -> A * list Action.

#[global] Instance dispatch_ret : MRet Dispatch := fun _ a log => (a, log).
#[global] Instance dispatch_mbind : MBind Dispatch :=
  fun _ _ k c log => let '(a, log') := c log in k a log'.

(** [this.props.dispatch(action)] *)
Definition dispatch (a : Action) : Dispatch unit :=
  fun log => (tt, log ++ [a]).

(** The actions dispatched by a call, in order, starting from an empty log. *)
Definition dispatched {A} (c : Dispatch A) : list Action := (c []).2.

(** The load requests among dispatched actions. *)
Definition is_load_request (a : Action) : bool :=
  match a with
  | ManifestRequest _ | SearchRequest _ => true
  | ReplaceState _ _ => false
  end.

Definition load_requests {A} (c : Dispatch A) : list Action :=
  filter (fun a => is_load_request a = true) (dispatched c).

(** ** Memoised selectors ([createSelector]) *)

(** [a === b] as the memoiser sees it.  On strings it is equality of
    values; on objects (Immutable maps and records) it is identity of
    references, of which the value model keeps what matters: two values
    found identical are equal. *)
Class RefEq (A : Type) : Type := {
  ref_eq : A -> A -> bool;
  ref_eq_sound : forall a b, ref_eq a b = true -> a = b
}.

#[global] Program Instance string_RefEq : RefEq string :=
  {| ref_eq := fun a b => bool_decide (a = b) |}.
Next Obligation. intros a b H. by apply bool_decide_eq_true in H. Qed.

#[global] Program Instance option_string_RefEq : RefEq (option string) :=
  {| ref_eq := fun a b => bool_decide (a = b) |}.
Next Obligation. intros a b H. by apply bool_decide_eq_true in H. Qed.

(** The arguments of a result function are compared one by one. *)
#[global] Program Instance pair_RefEq {A B} `{RefEq A, RefEq B} : RefEq (A * B) :=
  {| ref_eq := fun x y => ref_eq x.1 y.1 && ref_eq x.2 y.2 |}.
Next Obligation.
  intros A B HA HB [a1 b1] [a2 b2] H. simpl in H.
  apply andb_true_iff in H as [H1 H2].
  by rewrite (ref_eq_sound _ _ H1), (ref_eq_sound _ _ H2).
Qed.

(** An identity test that never recognises two objects: every call
    recomputes.  It is one admissible behaviour of [===] on objects. *)
Definition never_RefEq (A : Type) : RefEq A.
Proof. refine {| ref_eq := fun _ _ => false |}. intros a b H. discriminate H. Defined.

(** The one-entry cache of a memoised function: the last arguments and the
    last result. *)
Definition Memo (I O : Type) : Type := option (I * O).

(** A call of a memoised function: the cached result when the arguments are
    identical to the last ones, a fresh result otherwise; the arguments of
    this call become the last ones. *)
Definition memo_call {I O} `{RefEq I} (f : I -> O) (cache : Memo I O) (i : I)
  : O * Memo I O :=
  match cache with
  | Some (lastArgs, lastResult) =>
      if ref_eq lastArgs i then (lastResult, Some (i, lastResult))
      else let r := f i in (r, Some (i, r))
  | None => let r := f i in (r, Some (i, r))
  end.

(** The cache holds a result of the function for the arguments it holds. *)
Definition memo_ok {I O} (f : I -> O) (cache : Memo I O) : Prop :=
  match cache with
  | Some (i, o) => o = f i
  | None => True
  end.

(** ** Rendered trees *)

Section Elements.
Context {ManifestInfo ErrorInfo : Type}.

Inductive Element : Type :=
| Host (tag : string) (className : option string) (children : list Element)
| Text (s : string)
| Img (src : string)
| ErrorAlertEl (error : option ErrorInfo)
| ManifestViewerEl (manifestInfo : ManifestInfo)
| ManifestDisplayEl (manifestRequest : option (AsyncResource ManifestInfo ErrorInfo))
                    (manifestId : option string)
| SearchResultsEl (location : Route.Location)
| ManifestCascadeEl
| NavbarEl (location : Route.Location)
| FooterEl
| CSSTransitionGroupEl (children : list Element).

(** [<div className=...>...</div>] *)
Definition div (className : string) (children : list Element) : Element :=
  Host "div" (Some className) children.

(** [{c && x}] among the children of an element. *)
Definition when (c : bool) (x : Element) : list Element :=
  if c then [x] else [].

(** Whether a tree contains a node that satisfies [p]. *)
Fixpoint contains (p : Element -> bool) (e : Element) : bool :=
  p e ||
  match e with
  | Host _ _ children => existsb (contains p) children
  | CSSTransitionGroupEl children => existsb (contains p) children
  | _ => false
  end.

Definition is_ManifestCascade (e : Element) : bool :=
  match e with ManifestCascadeEl => true | _ => false end.
Definition is_SearchResults (e : Element) : bool :=
  match e with SearchResultsEl _ => true | _ => false end.
Definition is_ManifestDisplay (e : Element) : bool :=
  match e with ManifestDisplayEl _ _ => true | _ => false end.
Definition is_Img (e : Element) : bool :=
  match e with Img _ => true | _ => false end.

End Elements.
Arguments Element : clear implicits.

(** ** [ManifestDisplay]: the detail view of one manifest *)

Module ManifestDisplay.
Section Component.
Context {ManifestInfo ErrorInfo : Type}.

Record Props : Type := mkProps {
  manifestRequest : option (AsyncResource ManifestInfo ErrorInfo);
  manifestId : option string
}.

(** [<div className="container"><ErrorAlert error={req.error} /></div>] *)
Definition error_display (e : option ErrorInfo) : Element ManifestInfo ErrorInfo :=
  div "container" [ErrorAlertEl e].

(** [<div className="container"><p>Loading...</p></div>] *)
Definition loading_placeholder : Element ManifestInfo ErrorInfo :=
  div "container" [Host "p" None [Text "Loading..."]].

(** [<ManifestViewer manifestInfo={req.value} />] *)
Definition manifest_viewer (v : ManifestInfo) : Element ManifestInfo ErrorInfo :=
  ManifestViewerEl v.

(** [render()]: the error branch is tested first ([req && req.status ===
    ERROR]), then the loading branch ([!req || !req.value]); what is left
    shows the viewer. *)
Definition render (props : Props) : Element ManifestInfo ErrorInfo :=
  let req := manifestRequest props in
  match req with
  | Some r =>
      if bool_decide (status r = ERROR) then error_display (error r)
      else
        match value r with
        | None => loading_placeholder
        | Some v => manifest_viewer v
        end
  | None => loading_placeholder
  end.

(** The three render paths. *)
Inductive RenderPath : Type := LoadingPath | ErrorPath | SuccessPath.

(** The path a rendered tree belongs to, read off its shape. *)
Definition render_path (e : Element ManifestInfo ErrorInfo) : option RenderPath :=
  match e with
  | Host _ _ [ErrorAlertEl _] => Some ErrorPath
  | Host _ _ [Host _ _ [Text _]] => Some LoadingPath
  | ManifestViewerEl _ => Some SuccessPath
  | _ => None
  end.

End Component.
Arguments Props : clear implicits.
End ManifestDisplay.

(** ** [LandingPage]: the landing and search container *)

Module LandingPage.
Section Component.
Context {ManifestInfo SearchResult ErrorInfo : Type}.
Context `{RefEq (gmap string (AsyncResource ManifestInfo ErrorInfo))}.

(** What the router hands to the component. *)
Record OwnProps : Type := mkOwnProps {
  params : Route.Params;
  location : Route.Location
}.

(** What [selector] computes from the store. *)
Record StateProps : Type := mkStateProps {
  manifestRequest : option (AsyncResource ManifestInfo ErrorInfo)
}.

(** [this.props] of the connected component: the two merged. *)
Record Props : Type := mkProps {
  ownProps : OwnProps;
  stateProps : StateProps
}.

(** The input selectors of [selector]: [state => state.manifests] and
    [(_, props) => props.params.manifestId]. *)
Definition selector_inputs
    (state : State ManifestInfo SearchResult ErrorInfo) (props : OwnProps)
  : gmap string (AsyncResource ManifestInfo ErrorInfo) * option string :=
  (manifests state, Route.manifestId (params props)).

(** The result function of [selector]:
    [(manifests, id) => ({ manifestRequest: manifests.get(id) })]. *)
Definition selector_result
    (args : gmap string (AsyncResource ManifestInfo ErrorInfo) * option string)
  : StateProps :=
  let '(manifests, id) := args in
  {| manifestRequest := Map_get manifests id |}.

(** The cache of the memoised [selector]. *)
Local Abbreviation SelectorCache :=
  (Memo (gmap string (AsyncResource ManifestInfo ErrorInfo) * option string)
        StateProps).

(** [selector(state, props)], with the cache it reads and leaves. *)
Definition selector (cache : SelectorCache)
    (state : State ManifestInfo SearchResult ErrorInfo) (props : OwnProps)
  : StateProps * SelectorCache :=
  memo_call selector_result cache (selector_inputs state props).

(** The cache after a sequence of earlier calls of [selector]. *)
Definition selector_cache_after
    (calls : list (State ManifestInfo SearchResult ErrorInfo * OwnProps))
  : SelectorCache :=
  fold_left (fun cache call => (selector cache call.1 call.2).2) calls None.

(** What [connect(selector)] does for one render: the store and the log of
    dispatched actions are there, the selector is given the state and the
    props only. *)
Record World : Type := mkWorld {
  store : State ManifestInfo SearchResult ErrorInfo;
  log : list Action;
  cache : SelectorCache
}.

Definition connect (w : World) (own : OwnProps) : Props * World :=
  let '(sp, cache') := selector (cache w) (store w) own in
  ({| ownProps := own; stateProps := sp |},
   {| store := store w; log := log w; cache := cache' |}).

(** A component instance: [this.props], and the instance's own field
    [this.manifestRequest], which [componentDidMount] reads. *)
Record This : Type := mkThis {
  props : Props;
  this_manifestRequest : option (AsyncResource ManifestInfo ErrorInfo)
}.

(** A freshly constructed instance: no method of the class, nor of
    [React.Component], assigns [this.manifestRequest], so it is
    [undefined]. *)
Definition instantiate (p : Props) : This :=
  {| props := p; this_manifestRequest := None |}.

(** [_loadManifest(id)] *)
Definition _loadManifest (this : This) (id : option string) : Dispatch unit :=
  dispatch (ManifestRequest id).

(** [componentDidMount()] *)
Definition componentDidMount (this : This) : Dispatch unit :=
  if truthy (Route.manifestId (params (ownProps (props this))))
     && negb (present (this_manifestRequest this))
  then _loadManifest this (Route.manifestId (params (ownProps (props this))))
  else mret tt.

(** [componentWillReceiveProps(nextProps)] *)
Definition componentWillReceiveProps (this : This) (nextProps : Props)
  : Dispatch unit :=
  if truthy (Route.manifestId (params (ownProps nextProps)))
     && strict_ne (Route.manifestId (params (ownProps nextProps)))
                  (Route.manifestId (params (ownProps (props this))))
  then _loadManifest this (Route.manifestId (params (ownProps nextProps)))
  else mret tt.

(** Mounting the connected component on a store state. *)
Definition mount (w : World) (own : OwnProps) : Dispatch unit :=
  componentDidMount (instantiate (connect w own).1).

(** [_renderLanding()] *)
Definition _renderLanding (this : This) : Element ManifestInfo ErrorInfo :=
  let query := Route.query (location (ownProps (props this))) in
  div "landing--container propagate-height"
    [div "container"
       (when (negb (truthy (Route.q query)) && negb (truthy (Route.m query)))
          (Host "section" None
             [div "page-header" [Host "h2" None [Text "Selected items"]];
              ManifestCascadeEl]))].

(** [_renderManifest()] *)
Definition _renderManifest (this : This) : Element ManifestInfo ErrorInfo :=
  if truthy (Route.manifestId (params (ownProps (props this))))
  then ManifestDisplayEl (manifestRequest (stateProps (props this)))
                         (Route.manifestId (params (ownProps (props this))))
  else div "manifest-detail__click-helper"
         [Host "h5" None [Text "Click on a Result to View it Here"]].

(** [_renderResults()] *)
Definition _renderResults (this : This) : Element ManifestInfo ErrorInfo :=
  let rightPanel := _renderManifest this in
  let query := Route.query (location (ownProps (props this))) in
  div "manifest-detail propagate-height propagate-height--row"
    [CSSTransitionGroupEl
       (when (truthy (Route.q query) || truthy (Route.m query))
          (div "search-results--container"
             [SearchResultsEl (location (ownProps (props this)))]));
     rightPanel].

(** [render()] *)
Definition render (this : This) : Element ManifestInfo ErrorInfo :=
  let query := Route.query (location (ownProps (props this))) in
  let children :=
    if truthy (Route.q query) || truthy (Route.m query)
       || truthy (Route.manifestId (params (ownProps (props this))))
    then _renderResults this
    else _renderLanding this in
  div "propagate-height propagate-height--root"
    [NavbarEl (location (ownProps (props this))); children; FooterEl].

(** The three layouts of the page. *)
Inductive Layout : Type := PlainLanding | SplitResultsDetail | DetailOnly.

Definition has_class (c : string) (e : Element ManifestInfo ErrorInfo) : bool :=
  match e with
  | Host _ (Some c') _ => String.eqb c c'
  | _ => false
  end.

(** The layout of a rendered page, read off the tree: the cascade of recent
    items, the detail pane, the panel of search results. *)
Definition layout_of (e : Element ManifestInfo ErrorInfo) : option Layout :=
  let cascade := contains is_ManifestCascade e in
  let detail :=
    contains (has_class "manifest-detail propagate-height propagate-height--row") e in
  let results := contains is_SearchResults e in
  match cascade, detail, results with
  | true, false, false => Some PlainLanding
  | false, true, true => Some SplitResultsDetail
  | false, true, false => Some DetailOnly
  | _, _, _ => None
  end.

End Component.
Arguments OwnProps : clear implicits.
Arguments StateProps : clear implicits.
Arguments Props : clear implicits.
Arguments This : clear implicits.
Arguments World : clear implicits.
End LandingPage.

(** ** [SearchPageContainer]: the search page *)

Module SearchPageContainer.
Section Component.
Context {ManifestInfo SearchResult ErrorInfo : Type}.
Context `{RefEq (gmap string (AsyncResource SearchResult ErrorInfo))}.
Context `{RefEq (option (AsyncResource SearchResult ErrorInfo))}.

(** [this.props], as [getState] builds them. *)
Record Props : Type := mkProps {
  query : option string;
  results : option (AsyncResource SearchResult ErrorInfo);
  pathname : string
}.

(** [state => state.router.location.query.q] *)
Definition getQuery (state : State ManifestInfo SearchResult ErrorInfo)
  : option string :=
  Route.q (Route.query (Route.location (router state))).

(** The result function of [getSearchResults]:
    [(query, search) => search.get(query)]. *)
Definition getSearchResults_result
    (args : option string * gmap string (AsyncResource SearchResult ErrorInfo))
  : option (AsyncResource SearchResult ErrorInfo) :=
  let '(query, search) := args in Map_get search query.

(** The result function of [getState]:
    [(query, results, pathname) => ({ query, results, pathname })]. *)
Definition getState_result
    (args : option string * option (AsyncResource SearchResult ErrorInfo) * string)
  : Props :=
  let '(query, results, pathname) := args in
  {| query := query; results := results; pathname := pathname |}.

(** The caches of the two memoised selectors. *)
Record Caches : Type := mkCaches {
  getSearchResults_cache :
    Memo (option string * gmap string (AsyncResource SearchResult ErrorInfo))
         (option (AsyncResource SearchResult ErrorInfo));
  getState_cache :
    Memo (option string * option (AsyncResource SearchResult ErrorInfo) * string)
         Props
}.

Definition cold : Caches :=
  {| getSearchResults_cache := None; getState_cache := None |}.

(** [getSearchResults(state)] *)
Definition getSearchResults
    (cache : Memo (option string * gmap string (AsyncResource SearchResult ErrorInfo))
                  (option (AsyncResource SearchResult ErrorInfo)))
    (state : State ManifestInfo SearchResult ErrorInfo) :=
  memo_call getSearchResults_result cache (getQuery state, search state).

(** [getState(state)]: its input selectors are [getQuery], the memoised
    [getSearchResults] and [state => state.router.location.pathname]. *)
Definition getState (caches : Caches)
    (state : State ManifestInfo SearchResult ErrorInfo) : Props * Caches :=
  let query := getQuery state in
  let '(results, c1) := getSearchResults (getSearchResults_cache caches) state in
  let pathname := Route.pathname (Route.location (router state)) in
  let '(out, c2) :=
    memo_call getState_result (getState_cache caches) (query, results, pathname) in
  (out, {| getSearchResults_cache := c1; getState_cache := c2 |}).

(** Each cache holds a result of its function for the arguments it holds. *)
Definition caches_ok (caches : Caches) : Prop :=
  memo_ok getSearchResults_result (getSearchResults_cache caches)
  /\ memo_ok getState_result (getState_cache caches).

(** The caches after a sequence of earlier calls of [getState]. *)
Definition caches_after
    (calls : list (State ManifestInfo SearchResult ErrorInfo)) : Caches :=
  fold_left (fun caches state => (getState caches state).2) calls cold.

(** What [connect(getState)] does for one render. *)
Record World : Type := mkWorld {
  store : State ManifestInfo SearchResult ErrorInfo;
  log : list Action;
  caches : Caches
}.

Definition connect (w : World) : Props * World :=
  let '(p, caches') := getState (caches w) (store w) in
  (p, {| store := store w; log := log w; caches := caches' |}).

(** [_loadQuery(query)] *)
Definition _loadQuery (this : Props) (query : option string) : Dispatch unit :=
  if negb (truthy query) then
    dispatch (ReplaceState (pathname this) None)
  else
    dispatch (ReplaceState (pathname this)
                (Some {| Route.q := query; Route.m := None |}));;
    dispatch (SearchRequest query).

(** [componentDidMount()] *)
Definition componentDidMount (this : Props) : Dispatch unit :=
  _loadQuery this (query this).

(** Mounting the connected component on a store state. *)
Definition mount (w : World) : Dispatch unit :=
  componentDidMount (connect w).1.

End Component.
Arguments Props : clear implicits.
Arguments Caches : clear implicits.
Arguments World : clear implicits.
End SearchPageContainer.

(** ** [ManifestCascadeItemLabel]: one manifest of the cascade *)

Module ManifestCascadeItemLabel.
Section Component.
Context {ManifestInfo ErrorInfo Manifest : Type}.

Record Props : Type := mkProps {
  manifest : option Manifest
}.

(** [ManifestCascadeItemLabel({ manifest })] *)
Definition ManifestCascadeItemLabel (props : Props)
  : Completion (Element ManifestInfo ErrorInfo) :=
  let info :=
    if present (manifest props)
    then Host "div" (Some "h4") [Text "[Manifest things]"]
    else Host "div" (Some "h4 text-center") [Text "Loading..."] in
  mret (div "manifest-cascade__item__label" [info]).

End Component.
Arguments Props : clear implicits.
End ManifestCascadeItemLabel.

(** ** [Thumbnail]: the thumbnail of a search result *)

Module Thumbnail.
Section Component.
Context {ManifestInfo ErrorInfo ImageResource : Type}.

(** What [getImageUrlWithMaxWidth] resolves an image to. *)
Record ResolvedImage : Type := mkResolved {
  url : option string
}.

(** [getImageUrlWithMaxWidth] of [utils/iiif-manifest-accessors], taken as
    a parameter: it returns a resolved image, or nothing when the resource
    holds no usable image. *)
Variable getImageUrlWithMaxWidth : ImageResource -> Z -> option ResolvedImage.

Definition MAX_THUMBNAIL_WIDTH : Z := 100.

(** [props.src]: a URL, an image resource, or a value that is neither (a
    falsy value which is not a string). *)
Inductive Src : Type :=
| SrcString (s : string)
| SrcObject (o : ImageResource)
| SrcFalsy.

(** [Thumbnail({ src })] *)
Definition Thumbnail (src : Src) : Completion (Element ManifestInfo ErrorInfo) :=
  imgSrc ←
    match src with
    | SrcString s => mret (Some s)
    | SrcObject o =>
        let resolved := getImageUrlWithMaxWidth o MAX_THUMBNAIL_WIDTH in
        if present resolved then get_prop resolved url else mret None
    | SrcFalsy => mret None
    end;
  mret (div "search-result__item__thumbnail"
          match imgSrc with
          | Some s => when (truthy imgSrc) (Img s)
          | None => []
          end).

End Component.
Arguments ResolvedImage : clear implicits.
Arguments Src : clear implicits.
End Thumbnail.

(** ** Concrete stores and routes

    Manifests and search results are strings here, an error is its
    message; the maps are compared by value, so a selector recomputes only
    when an input really changed. *)

Module Examples.

#[global] Instance AsyncResource_eq_dec {T E} `{EqDecision T, EqDecision E}
  : EqDecision (AsyncResource T E).
Proof. solve_decision. Defined.

(** An identity test that recognises every pair of equal values. *)
#[global] Instance decide_RefEq (A : Type) `{EqDecision A} : RefEq A | 100.
Proof.
  refine {| ref_eq := fun a b => bool_decide (a = b) |}.
  intros a b Hab. by apply bool_decide_eq_true in Hab.
Defined.

Definition pending : AsyncResource string string := mkResource PENDING None None.
Definition loaded : AsyncResource string string :=
  mkResource SUCCESS (Some "manifest 42") None.
Definition failed : AsyncResource string string :=
  mkResource ERROR None (Some "not found").
Definition pending_with_value : AsyncResource string string :=
  mkResource PENDING (Some "manifest 42") None.

Definition no_query : Route.Query := Route.mkQuery None None.
Definition cat_query : Route.Query := Route.mkQuery (Some "cat") None.

(** [/], [/manifests/42], [/?q=cat] and [/manifests/42?q=cat] *)
Definition root_location : Route.Location := Route.mkLocation "/" no_query.
Definition manifest_location : Route.Location :=
  Route.mkLocation "/manifests/42" no_query.
Definition root_own : LandingPage.OwnProps :=
  LandingPage.mkOwnProps (Route.mkParams None) root_location.
Definition manifest_own : LandingPage.OwnProps :=
  LandingPage.mkOwnProps (Route.mkParams (Some "42")) manifest_location.
Definition manifest_7_own : LandingPage.OwnProps :=
  LandingPage.mkOwnProps (Route.mkParams (Some "7"))
    (Route.mkLocation "/manifests/7" no_query).
Definition search_own : LandingPage.OwnProps :=
  LandingPage.mkOwnProps (Route.mkParams None) (Route.mkLocation "/" cat_query).

(** A store that knows nothing, and one that holds manifest 42 and the
    results of the query [cat]. *)
Definition empty_state (l : Route.Location) : State string string string :=
  mkState ∅ ∅ (Route.mkRouter l).
Definition warm_state (l : Route.Location) : State string string string :=
  mkState {[ "42" := loaded ]} {[ "cat" := loaded ]} (Route.mkRouter l).

Definition landing_world (st : State string string string)
  : LandingPage.World string string string :=
  LandingPage.mkWorld st [] None.

Definition search_world (st : State string string string)
  : SearchPageContainer.World string string string :=
  SearchPageContainer.mkWorld st [] SearchPageContainer.cold.

Definition landing_this (own : LandingPage.OwnProps)
    (req : option (AsyncResource string string))
  : LandingPage.This string string :=
  LandingPage.instantiate
    (LandingPage.mkProps own (LandingPage.mkStateProps req)).

(** The search page on [/?q=cat], with results for [cat] in the store and
    without; the landing page on [/manifests/42] with the manifest in the
    store and without. *)
Definition cat_location : Route.Location := Route.mkLocation "/" cat_query.
Definition cat_cached_world : SearchPageContainer.World string string string :=
  search_world (warm_state cat_location).
Definition cat_fresh_world : SearchPageContainer.World string string string :=
  search_world (empty_state cat_location).
Definition blank_world : SearchPageContainer.World string string string :=
  search_world (warm_state root_location).
Definition manifest_cached_world : LandingPage.World string string string :=
  landing_world (warm_state manifest_location).
Definition manifest_fresh_world : LandingPage.World string string string :=
  landing_world (empty_state manifest_location).

(** The props of the detail view on [/manifests/42]. *)
Definition display (req : option (AsyncResource string string))
  : ManifestDisplay.Props string string :=
  ManifestDisplay.mkProps req (Some "42").

(** A store in which the request for manifest 42 has failed. *)
Definition failed_state (l : Route.Location) : State string string string :=
  mkState {[ "42" := failed ]} ∅ (Route.mkRouter l).
Definition manifest_failed_world : LandingPage.World string string string :=
  landing_world (failed_state manifest_location).

(** Two stores that differ in the path of the route only. *)
Definition about_cat_location : Route.Location := Route.mkLocation "/about" cat_query.

(** An image resolver that finds an image for the resource [1] only. *)
Definition resolve_one (o : nat) (width : Z) : option Thumbnail.ResolvedImage :=
  match o with
  | 1 => Some (Thumbnail.mkResolved (Some "https://example.org/1/full/100,/0/default.jpg"))
  | 2 => Some (Thumbnail.mkResolved None)
  | _ => None
  end.

End Examples.

(** ** Sequences of lifecycle calls *)

(** A call only appends to the log of dispatched actions, and what it
    returns does not depend on the log. *)
Definition appends {A} (c : Dispatch A) : Prop :=
  forall log, c log = ((c []).1, log ++ (c []).2).

Module LandingPageUpdates.
Section Component.
Context {ManifestInfo ErrorInfo : Type}.

(** [props.params.manifestId] *)
Definition props_id (p : LandingPage.Props ManifestInfo ErrorInfo)
  : option string :=
  Route.manifestId (LandingPage.params (LandingPage.ownProps p)).

(** One update of a mounted instance, as React runs it:
    [componentWillReceiveProps(nextProps)] is called while [this.props]
    still holds the previous props; then [this.props] is [nextProps]. *)
Definition receiveProps (this : LandingPage.This ManifestInfo ErrorInfo)
    (nextProps : LandingPage.Props ManifestInfo ErrorInfo)
  : Dispatch (LandingPage.This ManifestInfo ErrorInfo) :=
  LandingPage.componentWillReceiveProps this nextProps;;
  mret (LandingPage.mkThis nextProps (LandingPage.this_manifestRequest this)).

(** A sequence of updates of one instance. *)
Fixpoint receiveAll (this : LandingPage.This ManifestInfo ErrorInfo)
    (updates : list (LandingPage.Props ManifestInfo ErrorInfo))
  : Dispatch (LandingPage.This ManifestInfo ErrorInfo) :=
  match updates with
  | [] => mret this
  | nextProps :: rest =>
      this' ← receiveProps this nextProps; receiveAll this' rest
  end.

(** The ids of a sequence of routes that are present and differ from the
    id just before them; [previous] is the id before the first. *)
Fixpoint newly_bound (previous : option string) (ids : list (option string))
  : list (option string) :=
  match ids with
  | [] => []
  | id :: rest =>
      (if truthy id && strict_ne id previous then [id] else [])
      ++ newly_bound id rest
  end.

(** React rendering the [ManifestDisplay] element of the right panel: the
    tree of the detail view, when the right panel holds one. *)
Definition detail_view (this : LandingPage.This ManifestInfo ErrorInfo)
  : option (Element ManifestInfo ErrorInfo) :=
  match LandingPage._renderManifest this with
  | ManifestDisplayEl manifestRequest manifestId =>
      Some (ManifestDisplay.render
              (ManifestDisplay.mkProps manifestRequest manifestId))
  | _ => None
  end.

End Component.
End LandingPageUpdates.

(** ** Trees: the nodes of a rendered tree *)

Section Descendants.
Context {ManifestInfo ErrorInfo : Type}.

(** A tree's nodes, the root first. *)
Fixpoint descendants (e : Element ManifestInfo ErrorInfo)
  : list (Element ManifestInfo ErrorInfo) :=
  e ::
  match e with
  | Host _ _ children => flat_map descendants children
  | CSSTransitionGroupEl children => flat_map descendants children
  | _ => []
  end.

(** [<div className="manifest-detail__click-helper">...</div>], the right
    panel when no manifest is chosen. *)
Definition click_helper : Element ManifestInfo ErrorInfo :=
  div "manifest-detail__click-helper"
    [Host "h5" None [Text "Click on a Result to View it Here"]].

End Descendants.

(** ** [SearchPageContainer.render] and the changes of its input *)

Module SearchPageRender.
Section Component.
Context {SearchResult ErrorInfo : Type}.

(** The change event of the input, of which the handler reads
    [target.value]. *)
Record ChangeEvent : Type := mkChangeEvent {
  target_value : string
}.

(** The props given to [<SearchInput>] and to [<SearchResultList>]. *)
Record SearchInputProps : Type := mkSearchInput {
  input_query : option string;
  onChange : ChangeEvent -> Dispatch unit
}.

Record SearchResultListProps : Type := mkSearchResultList {
  list_query : option string;
  list_results : option (AsyncResource SearchResult ErrorInfo)
}.

(** The rendered page: the header, the input and the list of results,
    inside [<div className="container">]. *)
Record Page : Type := mkPage {
  header : string;
  searchInput : SearchInputProps;
  searchResultList : SearchResultListProps
}.

(** [render()] *)
Definition render (this : SearchPageContainer.Props SearchResult ErrorInfo)
  : Page :=
  {| header := "Search";
     searchInput :=
       {| input_query := SearchPageContainer.query this;
          onChange := fun ev =>
            SearchPageContainer._loadQuery this (Some (target_value ev)) |};
     searchResultList :=
       {| list_query := SearchPageContainer.query this;
          list_results := SearchPageContainer.results this |} |}.

(** A sequence of changes of the input: each is handled by the handler of
    the rendering in place, made from the props of the moment. *)
Fixpoint changes
    (events : list (SearchPageContainer.Props SearchResult ErrorInfo * string))
  : Dispatch unit :=
  match events with
  | [] => mret tt
  | (this, v) :: rest =>
      onChange (searchInput (render this)) (mkChangeEvent v);;
      changes rest
  end.

(** What one change of the input to [v] dispatches. *)
Definition change_actions
    (event : SearchPageContainer.Props SearchResult ErrorInfo * string)
  : list Action :=
  let '(this, v) := event in
  if String.eqb v EmptyString
  then [ReplaceState (SearchPageContainer.pathname this) None]
  else [ReplaceState (SearchPageContainer.pathname this)
          (Some (Route.mkQuery (Some v) None));
        SearchRequest (Some v)].

End Component.
Arguments SearchInputProps : clear implicits.
Arguments SearchResultListProps : clear implicits.
Arguments Page : clear implicits.
End SearchPageRender.

(** * Properties *)

(** ** Memoisation does not change what a selector returns *)

Section MemoFacts.
Context {I O : Type} `{RefEq I} (f : I -> O).

Lemma memo_call_result (cache : Memo I O) (i : I) :
  memo_ok f cache -> (memo_call f cache i).1 = f i.
Proof.
  destruct cache as [[lastArgs lastResult]|]; simpl; [|done].
  intros ->. destruct (ref_eq lastArgs i) eqn:Hhit; simpl; [|done].
  by rewrite (ref_eq_sound _ _ Hhit).
Qed.

Lemma memo_call_ok (cache : Memo I O) (i : I) :
  memo_ok f cache -> memo_ok f (memo_call f cache i).2.
Proof.
  destruct cache as [[lastArgs lastResult]|]; simpl; [|done].
  intros ->. destruct (ref_eq lastArgs i) eqn:Hhit; simpl; [|done].
  by rewrite (ref_eq_sound _ _ Hhit).
Qed.

End MemoFacts.

Lemma fold_left_invariant {A B} (P : A -> Prop) (step : A -> B -> A) :
  (forall a b, P a -> P (step a b)) ->
  forall (l : list B) (a : A), P a -> P (fold_left step l a).
Proof.
  intros Hstep l. induction l as [|b l IH]; simpl; [done|].
  intros a Ha. apply IH, Hstep, Ha.
Qed.

(** ** The selector of [LandingPage] *)

Section LandingSelectorFacts.
Context {ManifestInfo SearchResult ErrorInfo : Type}.
Context `{RefEq (gmap string (AsyncResource ManifestInfo ErrorInfo))}.
Implicit Types (state : State ManifestInfo SearchResult ErrorInfo).
Implicit Types (own : LandingPage.OwnProps).
Implicit Types
  (calls : list (State ManifestInfo SearchResult ErrorInfo * LandingPage.OwnProps)).

Lemma selector_cache_after_ok calls :
  memo_ok LandingPage.selector_result (LandingPage.selector_cache_after calls).
Proof.
  unfold LandingPage.selector_cache_after.
  apply (fold_left_invariant (memo_ok LandingPage.selector_result)); [|done].
  intros cache call Hok. by apply memo_call_ok.
Qed.

(** Whatever was asked before, [selector] returns what its result function
    computes from the manifests of the state and the id of the props. *)
Lemma selector_spec calls state own :
  (LandingPage.selector (LandingPage.selector_cache_after calls) state own).1
  = LandingPage.mkStateProps
      (Map_get (manifests state) (Route.manifestId (LandingPage.params own))).
Proof.
  unfold LandingPage.selector.
  rewrite (memo_call_result LandingPage.selector_result)
    by apply selector_cache_after_ok.
  reflexivity.
Qed.

End LandingSelectorFacts.

(** ** The selectors of [SearchPageContainer] *)

Section SearchSelectorFacts.
Context {ManifestInfo SearchResult ErrorInfo : Type}.
Context `{RefEq (gmap string (AsyncResource SearchResult ErrorInfo))}.
Context `{RefEq (option (AsyncResource SearchResult ErrorInfo))}.
Implicit Types (state : State ManifestInfo SearchResult ErrorInfo).
Implicit Types (calls : list (State ManifestInfo SearchResult ErrorInfo)).
Implicit Types (caches : SearchPageContainer.Caches SearchResult ErrorInfo).

Lemma getState_ok caches state :
  SearchPageContainer.caches_ok caches -> SearchPageContainer.caches_ok (SearchPageContainer.getState caches state).2.
Proof.
  intros [Hres Hst]. unfold SearchPageContainer.getState.
  destruct (SearchPageContainer.getSearchResults _ state) as [results c1] eqn:E1.
  destruct (memo_call SearchPageContainer.getState_result _ _) as [out c2] eqn:E2.
  split; simpl.
  - change c1 with (results, c1).2. rewrite <- E1. by apply memo_call_ok.
  - change c2 with (out, c2).2. rewrite <- E2. by apply memo_call_ok.
Qed.

Lemma caches_after_ok calls :
  SearchPageContainer.caches_ok (SearchPageContainer.caches_after calls).
Proof.
  unfold SearchPageContainer.caches_after.
  apply (fold_left_invariant SearchPageContainer.caches_ok); [|by split].
  intros caches state Hok. by apply getState_ok.
Qed.

Lemma getSearchResults_spec calls state :
  (SearchPageContainer.getSearchResults
     (SearchPageContainer.getSearchResults_cache
        (SearchPageContainer.caches_after calls)) state).1
  = Map_get (search state) (SearchPageContainer.getQuery state).
Proof.
  unfold SearchPageContainer.getSearchResults.
  rewrite (memo_call_result SearchPageContainer.getSearchResults_result)
    by apply caches_after_ok.
  reflexivity.
Qed.

(** Whatever was asked before, [getState] returns the query of the route,
    the entry of the search map under that query, and the path. *)
Lemma getState_spec calls state :
  (SearchPageContainer.getState (SearchPageContainer.caches_after calls) state).1
  = SearchPageContainer.mkProps
      (SearchPageContainer.getQuery state)
      (Map_get (search state) (SearchPageContainer.getQuery state))
      (Route.pathname (Route.location (router state))).
Proof.
  pose proof (caches_after_ok calls) as [Hres Hst].
  pose proof (getSearchResults_spec calls state) as Hresults.
  unfold SearchPageContainer.getState.
  destruct (SearchPageContainer.getSearchResults _ state) as [results c1].
  simpl in Hresults. subst results.
  destruct (memo_call SearchPageContainer.getState_result _ _) as [out c2] eqn:E2.
  change out with (out, c2).1. rewrite <- E2.
  by rewrite (memo_call_result SearchPageContainer.getState_result).
Qed.

End SearchSelectorFacts.

(** ** Dispatching *)

Lemma dispatched_dispatch (a : Action) : dispatched (dispatch a) = [a].
Proof. reflexivity. Qed.

Lemma dispatched_ret : dispatched (mret tt : Dispatch unit) = [].
Proof. reflexivity. Qed.

Lemma dispatched_seq (a b : Action) :
  dispatched (dispatch a;; dispatch b) = [a; b].
Proof. reflexivity. Qed.

(** ** Loading on mount *)

Section Mount.
Context {ManifestInfo SearchResult ErrorInfo : Type}.
Context `{RefEq (gmap string (AsyncResource ManifestInfo ErrorInfo))}.
Context `{RefEq (gmap string (AsyncResource SearchResult ErrorInfo))}.
Context `{RefEq (option (AsyncResource SearchResult ErrorInfo))}.
Implicit Types (state : State ManifestInfo SearchResult ErrorInfo).

(** What [componentDidMount] of [LandingPage] dispatches depends on the id
    of the route alone: the instance field it tests is never set. *)
Lemma LandingPage_mount_dispatched
    (w : LandingPage.World ManifestInfo SearchResult ErrorInfo)
    (own : LandingPage.OwnProps) :
  dispatched (LandingPage.mount w own)
  = if truthy (Route.manifestId (LandingPage.params own))
    then [ManifestRequest (Route.manifestId (LandingPage.params own))]
    else [].
Proof.
  unfold LandingPage.mount, LandingPage.connect.
  destruct (LandingPage.selector _ _ own) as [sp cache'].
  unfold LandingPage.componentDidMount; simpl.
  by destruct (truthy (Route.manifestId (LandingPage.params own))).
Qed.

Lemma SearchPageContainer_loadQuery_dispatched
    (this : SearchPageContainer.Props SearchResult ErrorInfo)
    (query : option string) :
  dispatched (SearchPageContainer._loadQuery this query)
  = if truthy query
    then [ReplaceState (SearchPageContainer.pathname this)
            (Some (Route.mkQuery query None));
          SearchRequest query]
    else [ReplaceState (SearchPageContainer.pathname this) None].
Proof.
  unfold SearchPageContainer._loadQuery.
  by destruct (truthy query).
Qed.

Lemma SearchPageContainer_mount_dispatched
    (calls : list (State ManifestInfo SearchResult ErrorInfo)) state log :
  dispatched
    (SearchPageContainer.mount
       (SearchPageContainer.mkWorld state log
          (SearchPageContainer.caches_after calls)))
  = if truthy (SearchPageContainer.getQuery state)
    then [ReplaceState (Route.pathname (Route.location (router state)))
            (Some (Route.mkQuery (SearchPageContainer.getQuery state) None));
          SearchRequest (SearchPageContainer.getQuery state)]
    else [ReplaceState (Route.pathname (Route.location (router state))) None].
Proof.
  unfold SearchPageContainer.mount, SearchPageContainer.connect; simpl.
  pose proof (getState_spec calls state) as Hprops.
  destruct (SearchPageContainer.getState _ state) as [p caches']; simpl in *.
  subst p. unfold SearchPageContainer.componentDidMount.
  by rewrite SearchPageContainer_loadQuery_dispatched.
Qed.

(** C1 (as amended).  On mount no load request is dispatched when the route
    supplies no identifier; when it supplies one and the map holds no
    resource for it, the load request for that identifier is dispatched.
    [SearchPageContainer] dispatches the search request for every present
    query, whether or not the map holds results for it.  Nothing is said
    here of [LandingPage] mounted on an identifier whose resource is in the
    map. *)
Theorem mount_load_request
    (landing_calls : list (State ManifestInfo SearchResult ErrorInfo
                           * LandingPage.OwnProps))
    (search_calls : list (State ManifestInfo SearchResult ErrorInfo))
    state log (own : LandingPage.OwnProps) :
  let landing :=
    LandingPage.mount
      (LandingPage.mkWorld state log
         (LandingPage.selector_cache_after landing_calls)) own in
  let searching :=
    SearchPageContainer.mount
      (SearchPageContainer.mkWorld state log
         (SearchPageContainer.caches_after search_calls)) in
  let id := Route.manifestId (LandingPage.params own) in
  let query := SearchPageContainer.getQuery state in
  (truthy id = false -> load_requests landing = [])
  /\ (truthy id = true -> Map_get (manifests state) id = None ->
      dispatched landing = [ManifestRequest id]
      /\ load_requests landing = [ManifestRequest id])
  /\ (truthy query = false -> load_requests searching = [])
  /\ (truthy query = true -> load_requests searching = [SearchRequest query]).
Proof.
  intros landing searching id query.
  unfold load_requests. subst landing searching.
  rewrite LandingPage_mount_dispatched, SearchPageContainer_mount_dispatched.
  fold id query.
  split; [|split; [|split]].
  - intros Hid. by rewrite Hid.
  - intros Hid _. by rewrite Hid.
  - intros Hq. by rewrite Hq.
  - intros Hq. by rewrite Hq.
Qed.

End Mount.

Lemma mount_load_request_witness :
  dispatched (LandingPage.mount Examples.manifest_fresh_world Examples.manifest_own)
  = [ManifestRequest (Some "42")]
  /\ load_requests (SearchPageContainer.mount Examples.cat_fresh_world)
     = [SearchRequest (Some "cat")]
  /\ load_requests (SearchPageContainer.mount Examples.blank_world) = []
  /\ load_requests (LandingPage.mount Examples.manifest_fresh_world Examples.root_own)
     = [].
Proof.
  pose proof (mount_load_request [] []
                (Examples.empty_state Examples.manifest_location) []
                Examples.manifest_own) as (_ & Hfresh & _ & _).
  pose proof (mount_load_request [] []
                (Examples.empty_state Examples.cat_location) []
                Examples.root_own) as (_ & _ & _ & Hcat).
  pose proof (mount_load_request [] []
                (Examples.warm_state Examples.root_location) []
                Examples.root_own) as (_ & _ & Hblank & _).
  pose proof (mount_load_request [] []
                (Examples.empty_state Examples.manifest_location) []
                Examples.root_own) as (Hroot & _ & _ & _).
  split; [exact (proj1 (Hfresh eq_refl eq_refl))|].
  split; [exact (Hcat eq_refl)|].
  split; [exact (Hblank eq_refl)|exact (Hroot eq_refl)].
Defined.

(** C1, the claim as stated, fails: the search page is mounted on [/?q=cat]
    while the search map holds results for [cat], and the search request
    for [cat] is dispatched all the same. *)
Lemma mount_requests_cached_query :
  SearchPageContainer.getQuery (SearchPageContainer.store Examples.cat_cached_world)
  = Some "cat"
  /\ search (SearchPageContainer.store Examples.cat_cached_world) !! "cat"
     = Some Examples.loaded
  /\ SearchPageContainer.results
       (SearchPageContainer.connect Examples.cat_cached_world).1
     = Some Examples.loaded
  /\ load_requests (SearchPageContainer.mount Examples.cat_cached_world)
     = [SearchRequest (Some "cat")].
Proof. repeat split; vm_compute; reflexivity. Qed.

(** [LandingPage] mounted on [/manifests/42] while the map holds manifest
    42: [componentDidMount] tests [this.manifestRequest], a field of the
    instance that nothing sets, where the props hold the resource, and the
    request is dispatched again. *)
Lemma LandingPage_mount_requests_loaded_manifest :
  LandingPage.manifestRequest
    (LandingPage.stateProps
       (LandingPage.connect Examples.manifest_cached_world Examples.manifest_own).1)
  = Some Examples.loaded
  /\ dispatched (LandingPage.mount Examples.manifest_cached_world Examples.manifest_own)
     = [ManifestRequest (Some "42")].
Proof. split; vm_compute; reflexivity. Qed.

(** ** Falsy identifiers *)

(** An identifier is absent when it is [undefined] or the empty string. *)
Lemma truthy_false_iff (v : option string) :
  truthy v = false <-> v = None \/ v = Some EmptyString.
Proof.
  destruct v as [s|]; simpl.
  - rewrite negb_false_iff, String.eqb_eq. split.
    + intros ->. by right.
    + intros [?|[= ->]]; done.
  - split; [by left|done].
Qed.

Lemma truthy_true_iff (v : option string) :
  truthy v = true <-> exists s, v = Some s /\ s <> EmptyString.
Proof.
  destruct v as [s|]; simpl.
  - rewrite negb_true_iff, String.eqb_neq. split.
    + intros Hs. by exists s.
    + by intros (s' & [= <-] & Hs).
  - split; [done|]. by intros (s & ? & _).
Qed.

(** ** Loading on a change of route *)

Section RouteUpdate.
Context {ManifestInfo ErrorInfo : Type}.

(** C2.  When [LandingPage] receives new route parameters: a present
    manifest id that differs from the previous one makes it dispatch exactly
    one load request, for the new id; an unchanged id, or an absent new id
    (whatever the previous one was), makes it dispatch nothing. *)
Theorem componentWillReceiveProps_load_request
    (this : LandingPage.This ManifestInfo ErrorInfo)
    (nextProps : LandingPage.Props ManifestInfo ErrorInfo) :
  let previous :=
    Route.manifestId (LandingPage.params (LandingPage.ownProps (LandingPage.props this))) in
  let next := Route.manifestId (LandingPage.params (LandingPage.ownProps nextProps)) in
  let update := LandingPage.componentWillReceiveProps this nextProps in
  (truthy next = true -> next <> previous ->
   dispatched update = [ManifestRequest next]
   /\ load_requests update = [ManifestRequest next])
  /\ (next = previous -> dispatched update = [])
  /\ (truthy next = false -> dispatched update = []).
Proof.
  intros previous next update. subst update.
  unfold LandingPage.componentWillReceiveProps, load_requests.
  fold previous next. unfold strict_ne.
  split; [|split].
  - intros Hnext Hne. rewrite Hnext, bool_decide_eq_false_2 by done. done.
  - intros Heq. rewrite bool_decide_eq_true_2 by done.
    by rewrite andb_false_r.
  - intros Hnext. by rewrite Hnext.
Qed.

End RouteUpdate.

Lemma componentWillReceiveProps_load_request_witness :
  dispatched
    (LandingPage.componentWillReceiveProps
       (Examples.landing_this Examples.manifest_own None)
       (LandingPage.mkProps Examples.manifest_7_own (LandingPage.mkStateProps None)))
  = [ManifestRequest (Some "7")]
  /\ dispatched
       (LandingPage.componentWillReceiveProps
          (Examples.landing_this Examples.manifest_own None)
          (LandingPage.mkProps Examples.manifest_own
             (LandingPage.mkStateProps (Some Examples.pending))))
     = []
  /\ dispatched
       (LandingPage.componentWillReceiveProps
          (Examples.landing_this Examples.manifest_own None)
          (LandingPage.mkProps Examples.root_own (LandingPage.mkStateProps None)))
     = [].
Proof.
  split; [|split].
  - refine (proj1 (proj1 (componentWillReceiveProps_load_request
                            (Examples.landing_this Examples.manifest_own None)
                            (LandingPage.mkProps Examples.manifest_7_own
                               (LandingPage.mkStateProps None))) eq_refl _)).
    discriminate.
  - exact (proj1 (proj2 (componentWillReceiveProps_load_request
                           (Examples.landing_this Examples.manifest_own None)
                           (LandingPage.mkProps Examples.manifest_own
                              (LandingPage.mkStateProps (Some Examples.pending)))))
                 eq_refl).
  - exact (proj2 (proj2 (componentWillReceiveProps_load_request
                           (Examples.landing_this Examples.manifest_own None)
                           (LandingPage.mkProps Examples.root_own
                              (LandingPage.mkStateProps None))))
                 eq_refl).
Defined.

(** ** Normalising the route of a search *)

Section LoadQuery.
Context {SearchResult ErrorInfo : Type}.

(** C5.  [_loadQuery] called with an absent query (undefined or empty)
    dispatches no search request: it dispatches the replacement of the
    location by the bare path, which carries no query parameters, and
    nothing else.  Called with a non-empty query it dispatches the
    replacement of the location by the path with that query, then the search
    request.  So a search request is dispatched only for a non-empty query. *)
Theorem loadQuery_normalises_route
    (this : SearchPageContainer.Props SearchResult ErrorInfo)
    (query : option string) :
  let load := SearchPageContainer._loadQuery this query in
  let path := SearchPageContainer.pathname this in
  (query = None \/ query = Some EmptyString ->
   dispatched load = [ReplaceState path None] /\ load_requests load = [])
  /\ (forall s, query = Some s -> s <> EmptyString ->
      dispatched load
      = [ReplaceState path (Some (Route.mkQuery (Some s) None));
         SearchRequest (Some s)])
  /\ (load_requests load <> [] -> exists s, query = Some s /\ s <> EmptyString).
Proof.
  intros load path. subst load path. unfold load_requests.
  rewrite SearchPageContainer_loadQuery_dispatched.
  split; [|split].
  - intros Habsent. apply truthy_false_iff in Habsent. by rewrite Habsent.
  - intros s -> Hs.
    assert (truthy (Some s) = true) as -> by (apply truthy_true_iff; eauto).
    done.
  - destruct (truthy query) eqn:Hq; [|done].
    intros _. by apply truthy_true_iff.
Qed.

End LoadQuery.

Lemma loadQuery_normalises_route_witness :
  dispatched
    (SearchPageContainer._loadQuery
       (SearchPageContainer.mkProps (Some "cat") (Some Examples.loaded) "/")
       (Some EmptyString))
  = [ReplaceState "/" None]
  /\ dispatched
       (SearchPageContainer._loadQuery
          (SearchPageContainer.mkProps (Some "cat") (Some Examples.loaded) "/")
          (Some "dog"))
     = [ReplaceState "/" (Some (Route.mkQuery (Some "dog") None));
        SearchRequest (Some "dog")].
Proof.
  split.
  - exact (proj1 (proj1 (loadQuery_normalises_route
                           (SearchPageContainer.mkProps (Some "cat")
                              (Some Examples.loaded) "/")
                           (Some EmptyString))
                        (or_intror eq_refl))).
  - refine (proj1 (proj2 (loadQuery_normalises_route
                            (SearchPageContainer.mkProps (Some "cat")
                               (Some Examples.loaded) "/")
                            (Some "dog")))
                  "dog" eq_refl _).
    discriminate.
Defined.

(** ** The three render paths of [ManifestDisplay] *)

Section ManifestDisplayFacts.
Context {ManifestInfo ErrorInfo : Type}.
Implicit Types (props : ManifestDisplay.Props ManifestInfo ErrorInfo).
Implicit Types (r : AsyncResource ManifestInfo ErrorInfo).

(** [render] reads the resource of the props and nothing else. *)
Lemma render_reads_manifestRequest props1 props2 :
  ManifestDisplay.manifestRequest props1 = ManifestDisplay.manifestRequest props2 ->
  ManifestDisplay.render props1 = ManifestDisplay.render props2.
Proof. unfold ManifestDisplay.render. by intros ->. Qed.

(** Every rendering is on one of the three paths. *)
Lemma render_path_total props :
  exists path,
    ManifestDisplay.render_path (ManifestDisplay.render props) = Some path.
Proof.
  unfold ManifestDisplay.render.
  destruct (ManifestDisplay.manifestRequest props) as [r|]; [|by eexists].
  case_bool_decide; [by eexists|].
  destruct (value r); by eexists.
Qed.

(** C3 (as amended).  [render] sends every state of the resource to one of
    the three render paths: no resource, or a PENDING resource that holds no
    value, to the loading placeholder (a PENDING resource that still holds
    a value to the viewer of that value); an ERROR resource to the error
    display that carries its error payload, which is not the loading
    placeholder; a SUCCESS resource with a value to the viewer populated
    from that value. *)
Theorem render_three_way props :
  (exists path,
     ManifestDisplay.render_path (ManifestDisplay.render props) = Some path)
  /\ (ManifestDisplay.manifestRequest props = None ->
      ManifestDisplay.render props
      = Host "div" (Some "container") [Host "p" None [Text "Loading..."]])
  /\ (forall r, ManifestDisplay.manifestRequest props = Some r ->
      status r = PENDING -> value r = None ->
      ManifestDisplay.render props
      = Host "div" (Some "container") [Host "p" None [Text "Loading..."]])
  /\ (forall r v, ManifestDisplay.manifestRequest props = Some r ->
      status r = PENDING -> value r = Some v ->
      ManifestDisplay.render props = ManifestViewerEl v)
  /\ (forall r, ManifestDisplay.manifestRequest props = Some r ->
      status r = ERROR ->
      ManifestDisplay.render props
      = Host "div" (Some "container") [ErrorAlertEl (error r)]
      /\ ManifestDisplay.render props
         <> Host "div" (Some "container") [Host "p" None [Text "Loading..."]])
  /\ (forall r v, ManifestDisplay.manifestRequest props = Some r ->
      status r = SUCCESS -> value r = Some v ->
      ManifestDisplay.render props = ManifestViewerEl v).
Proof.
  split; [apply render_path_total|].
  unfold ManifestDisplay.render.
  split; [by intros ->|].
  split; [|split; [|split]].
  - intros r -> Hst Hv. by rewrite Hst, Hv.
  - intros r v -> Hst Hv. by rewrite Hst, Hv.
  - intros r -> Hst. by rewrite Hst.
  - intros r v -> Hst Hv. by rewrite Hst, Hv.
Qed.

(** A PENDING resource within the invariant of the data model holds no
    value, and is rendered as the loading placeholder. *)
Lemma render_pending_well_formed r props :
  ManifestDisplay.manifestRequest props = Some r ->
  status r = PENDING -> resource_inv r ->
  ManifestDisplay.render props
  = Host "div" (Some "container") [Host "p" None [Text "Loading..."]].
Proof.
  unfold ManifestDisplay.render, resource_inv. intros -> Hst Hinv.
  rewrite Hst in Hinv. destruct Hinv as [Hv _]. by rewrite Hst, Hv.
Qed.

(** A PENDING resource that still holds a value, which the invariant of the
    data model excludes, is shown in the viewer: [render] tests the value,
    not the status. *)
Lemma render_pending_with_value r v props :
  ManifestDisplay.manifestRequest props = Some r ->
  status r = PENDING -> value r = Some v ->
  ManifestDisplay.render props = ManifestDisplay.manifest_viewer v.
Proof.
  unfold ManifestDisplay.render. intros -> Hst Hv. by rewrite Hst, Hv.
Qed.

(** C8.  Two renderings of [ManifestDisplay] with the same resource take
    the same render path and give the same tree, also when the route
    parameter handed to them differs (so a fortiori with the same resource
    and the same route parameter); that path is one of the three, and it is
    fixed by the resource alone: the error path for a resource in ERROR,
    the success path for another resource that holds a value, the loading
    path otherwise. *)
Theorem render_deterministic props1 props2 :
  ManifestDisplay.manifestRequest props1 = ManifestDisplay.manifestRequest props2 ->
  ManifestDisplay.render props1 = ManifestDisplay.render props2
  /\ exists path,
       ManifestDisplay.render_path (ManifestDisplay.render props1) = Some path
       /\ ManifestDisplay.render_path (ManifestDisplay.render props2) = Some path
       /\ path = match ManifestDisplay.manifestRequest props1 with
                 | None => ManifestDisplay.LoadingPath
                 | Some r =>
                     match status r, value r with
                     | ERROR, _ => ManifestDisplay.ErrorPath
                     | _, Some _ => ManifestDisplay.SuccessPath
                     | _, None => ManifestDisplay.LoadingPath
                     end
                 end.
Proof.
  intros Hreq. rewrite <- (render_reads_manifestRequest props1 props2 Hreq).
  split; [done|].
  unfold ManifestDisplay.render.
  destruct (ManifestDisplay.manifestRequest props1) as [r|]; [|by eexists].
  destruct (status r), (value r); by eexists.
Qed.


End ManifestDisplayFacts.

Lemma render_three_way_witness :
  ManifestDisplay.render (Examples.display None)
  = Host "div" (Some "container") [Host "p" None [Text "Loading..."]]
  /\ ManifestDisplay.render (Examples.display (Some Examples.pending))
     = Host "div" (Some "container") [Host "p" None [Text "Loading..."]]
  /\ ManifestDisplay.render (Examples.display (Some Examples.failed))
     = Host "div" (Some "container") [ErrorAlertEl (Some "not found")]
  /\ ManifestDisplay.render (Examples.display (Some Examples.loaded))
     = ManifestViewerEl "manifest 42".
Proof.
  split; [|split; [|split]].
  - exact (proj1 (proj2 (render_three_way (Examples.display None))) eq_refl).
  - exact (proj1 (proj2 (proj2 (render_three_way
                                  (Examples.display (Some Examples.pending)))))
                 Examples.pending eq_refl eq_refl eq_refl).
  - exact (proj1 (proj1 (proj2 (proj2 (proj2 (proj2 (render_three_way
                                  (Examples.display (Some Examples.failed)))))))
                        Examples.failed eq_refl eq_refl)).
  - exact (proj2 (proj2 (proj2 (proj2 (proj2 (render_three_way
                                  (Examples.display (Some Examples.loaded)))))))
                 Examples.loaded "manifest 42" eq_refl eq_refl eq_refl).
Defined.

(** C3, the claim as stated, fails: a PENDING resource that still holds a
    value is rendered in the viewer, not as the loading placeholder;
    [render] tests the value, not the status. *)
Lemma render_pending_value_shows_viewer :
  status Examples.pending_with_value = PENDING
  /\ ManifestDisplay.render (Examples.display (Some Examples.pending_with_value))
     = ManifestViewerEl "manifest 42"
  /\ ManifestDisplay.render (Examples.display (Some Examples.pending_with_value))
     <> Host "div" (Some "container") [Host "p" None [Text "Loading..."]].
Proof. split; [reflexivity|]. split; [reflexivity|discriminate]. Qed.

Lemma render_deterministic_witness :
  ManifestDisplay.render (ManifestDisplay.mkProps (Some Examples.failed) (Some "42"))
  = ManifestDisplay.render (ManifestDisplay.mkProps (Some Examples.failed) (Some "7"))
  /\ exists path,
       ManifestDisplay.render_path
         (ManifestDisplay.render
            (ManifestDisplay.mkProps (Some Examples.failed) (Some "42")))
       = Some path
       /\ ManifestDisplay.render_path
            (ManifestDisplay.render
               (ManifestDisplay.mkProps (Some Examples.failed) (Some "7")))
          = Some path
       /\ path = ManifestDisplay.ErrorPath.
Proof.
  exact (render_deterministic
           (ManifestDisplay.mkProps (Some Examples.failed) (Some "42"))
           (ManifestDisplay.mkProps (Some Examples.failed) (Some "7"))
           eq_refl).
Defined.


(** ** The three layouts of [LandingPage] *)

Section LandingLayout.
Context {ManifestInfo ErrorInfo : Type}.
Implicit Types (this : LandingPage.This ManifestInfo ErrorInfo).

(** C4.  The layout of the landing page is decided by the route alone, and
    is exactly one of three: the split layout (search results beside the
    detail pane) when [q] or [m] is present; the detail pane alone, without
    search results, when neither is present and a manifest id is bound; the
    plain landing with the cascade of recent items when all three are
    absent, and only then.  A route without [q], [m] and manifest id, such
    as [/] reached from [/manifests/42], shows the cascade and no detail
    view. *)
Theorem render_layout this :
  let route_query :=
    Route.query (LandingPage.location (LandingPage.ownProps (LandingPage.props this))) in
  let id :=
    Route.manifestId (LandingPage.params (LandingPage.ownProps (LandingPage.props this))) in
  let searching := truthy (Route.q route_query) || truthy (Route.m route_query) in
  let page := LandingPage.render this in
  LandingPage.layout_of page
  = Some (if searching then LandingPage.SplitResultsDetail
          else if truthy id then LandingPage.DetailOnly
          else LandingPage.PlainLanding)
  /\ (contains is_ManifestCascade page = true <->
      truthy (Route.q route_query) = false
      /\ truthy (Route.m route_query) = false
      /\ truthy id = false)
  /\ contains is_SearchResults page = searching
  /\ contains is_ManifestDisplay page = truthy id
  /\ (Route.q route_query = None -> Route.m route_query = None -> id = None ->
      LandingPage.layout_of page = Some LandingPage.PlainLanding
      /\ contains is_ManifestCascade page = true
      /\ contains is_ManifestDisplay page = false).
Proof.
  intros route_query id searching page. subst searching page.
  unfold LandingPage.layout_of, LandingPage.render, LandingPage._renderResults,
    LandingPage._renderLanding, LandingPage._renderManifest.
  fold route_query. fold id.
  split; [|split; [|split; [|split]]].
  - by destruct (truthy (Route.q route_query)), (truthy (Route.m route_query)),
      (truthy id).
  - destruct (truthy (Route.q route_query)), (truthy (Route.m route_query)),
      (truthy id); cbn; intuition congruence.
  - by destruct (truthy (Route.q route_query)), (truthy (Route.m route_query)),
      (truthy id).
  - by destruct (truthy (Route.q route_query)), (truthy (Route.m route_query)),
      (truthy id).
  - intros -> -> ->. done.
Qed.

End LandingLayout.

Lemma render_layout_witness :
  LandingPage.layout_of
    (LandingPage.render (Examples.landing_this Examples.root_own None))
  = Some LandingPage.PlainLanding
  /\ contains is_ManifestCascade
       (LandingPage.render (Examples.landing_this Examples.root_own None)) = true
  /\ contains is_ManifestDisplay
       (LandingPage.render (Examples.landing_this Examples.root_own None)) = false.
Proof.
  exact (proj2 (proj2 (proj2 (proj2
           (render_layout (Examples.landing_this Examples.root_own None)))))
           eq_refl eq_refl eq_refl).
Defined.

(** ** What the selectors return *)

Section SelectorClaims.
Context {ManifestInfo SearchResult ErrorInfo : Type}.
Context `{RefEq (gmap string (AsyncResource ManifestInfo ErrorInfo))}.
Context `{RefEq (gmap string (AsyncResource SearchResult ErrorInfo))}.
Context `{RefEq (option (AsyncResource SearchResult ErrorInfo))}.
Implicit Types (state : State ManifestInfo SearchResult ErrorInfo).
Implicit Types (own : LandingPage.OwnProps).
Implicit Types
  (landing_calls : list (State ManifestInfo SearchResult ErrorInfo * LandingPage.OwnProps)).
Implicit Types (search_calls : list (State ManifestInfo SearchResult ErrorInfo)).

(** C6.  For every state (and whatever the selectors were asked before),
    the resource a selector returns for a key is the entry of the resource
    map under that key when there is one, and [undefined] exactly when the
    map has no entry for the key.  This holds of [selector] with the
    manifest id of the props, and of [getSearchResults] and [getState] with
    the query of the route, [state.router.location.query.q]. *)
Theorem selectors_return_map_entry landing_calls search_calls state own :
  let id := Route.manifestId (LandingPage.params own) in
  let query := Route.q (Route.query (Route.location (router state))) in
  let request :=
    LandingPage.manifestRequest
      (LandingPage.selector (LandingPage.selector_cache_after landing_calls)
         state own).1 in
  let found :=
    (SearchPageContainer.getSearchResults
       (SearchPageContainer.getSearchResults_cache
          (SearchPageContainer.caches_after search_calls)) state).1 in
  let results :=
    SearchPageContainer.results
      (SearchPageContainer.getState
         (SearchPageContainer.caches_after search_calls) state).1 in
  (forall key, id = Some key ->
     request = manifests state !! key
     /\ (request = None <-> key ∉ dom (manifests state)))
  /\ (forall key, query = Some key ->
      found = search state !! key
      /\ results = search state !! key
      /\ (found = None <-> key ∉ dom (search state))
      /\ (results = None <-> key ∉ dom (search state)))
  /\ (id = None -> request = None)
  /\ (query = None -> found = None /\ results = None).
Proof.
  intros id query request found results. subst request found results.
  rewrite selector_spec, getSearchResults_spec, getState_spec. simpl.
  unfold SearchPageContainer.getQuery. fold id query.
  split; [|split; [|split]].
  - intros key ->. simpl. by rewrite not_elem_of_dom.
  - intros key ->. simpl. by rewrite not_elem_of_dom.
  - by intros ->.
  - by intros ->.
Qed.

(** C7 (as amended).  Each selector is a function of what it declares as
    inputs: two calls, on any two states and props and after any earlier
    calls, return equal outputs when the states and props agree on the key
    (manifest id, or query of the route), on the entry of the resource map
    under that key and, for [getState], on the path of the route, which it
    copies to its output.  A call leaves the store and the log of
    dispatched actions as they were. *)
Theorem selectors_pure
    landing_calls1 landing_calls2 search_calls1 search_calls2
    state1 state2 own1 own2 :
  let id1 := Route.manifestId (LandingPage.params own1) in
  let id2 := Route.manifestId (LandingPage.params own2) in
  let query1 := SearchPageContainer.getQuery state1 in
  let query2 := SearchPageContainer.getQuery state2 in
  let caches1 := SearchPageContainer.caches_after search_calls1 in
  let caches2 := SearchPageContainer.caches_after search_calls2 in
  (id1 = id2 ->
   Map_get (manifests state1) id1 = Map_get (manifests state2) id2 ->
   (LandingPage.selector (LandingPage.selector_cache_after landing_calls1)
      state1 own1).1
   = (LandingPage.selector (LandingPage.selector_cache_after landing_calls2)
        state2 own2).1)
  /\ (query1 = query2 ->
      Map_get (search state1) query1 = Map_get (search state2) query2 ->
      (SearchPageContainer.getSearchResults
         (SearchPageContainer.getSearchResults_cache caches1) state1).1
      = (SearchPageContainer.getSearchResults
           (SearchPageContainer.getSearchResults_cache caches2) state2).1)
  /\ (query1 = query2 ->
      Map_get (search state1) query1 = Map_get (search state2) query2 ->
      Route.pathname (Route.location (router state1))
      = Route.pathname (Route.location (router state2)) ->
      (SearchPageContainer.getState caches1 state1).1
      = (SearchPageContainer.getState caches2 state2).1)
  /\ (forall log,
      let w := LandingPage.mkWorld state1 log
                 (LandingPage.selector_cache_after landing_calls1) in
      LandingPage.store (LandingPage.connect w own1).2 = state1
      /\ LandingPage.log (LandingPage.connect w own1).2 = log)
  /\ (forall log,
      let w := SearchPageContainer.mkWorld state1 log caches1 in
      SearchPageContainer.store (SearchPageContainer.connect w).2 = state1
      /\ SearchPageContainer.log (SearchPageContainer.connect w).2 = log).
Proof.
  intros id1 id2 query1 query2 caches1 caches2. subst caches1 caches2.
  rewrite !selector_spec, !getSearchResults_spec, !getState_spec.
  fold id1 id2 query1 query2.
  split; [|split; [|split; [|split]]].
  - by intros _ ->.
  - by intros _ ->.
  - by intros -> -> ->.
  - intros log w. subst w. unfold LandingPage.connect; simpl.
    by destruct (LandingPage.selector _ state1 own1).
  - intros log w. subst w. unfold SearchPageContainer.connect; simpl.
    by destruct (SearchPageContainer.getState _ state1).
Qed.

End SelectorClaims.

Lemma selectors_return_map_entry_witness :
  LandingPage.manifestRequest
    (LandingPage.selector None
       (Examples.warm_state Examples.manifest_location) Examples.manifest_own).1
  = Some Examples.loaded
  /\ LandingPage.manifestRequest
       (LandingPage.selector None
          (Examples.warm_state Examples.manifest_location) Examples.manifest_7_own).1
     = None
  /\ (SearchPageContainer.getSearchResults None
        (Examples.warm_state Examples.cat_location)).1
     = Some Examples.loaded
  /\ SearchPageContainer.results
       (SearchPageContainer.getState SearchPageContainer.cold
          (Examples.warm_state Examples.cat_location)).1
     = Some Examples.loaded
  /\ SearchPageContainer.results
       (SearchPageContainer.getState SearchPageContainer.cold
          (Examples.empty_state Examples.cat_location)).1
     = None.
Proof.
  split; [|split; [|split; [|split]]].
  - exact (proj1 (proj1 (selectors_return_map_entry [] []
                           (Examples.warm_state Examples.manifest_location)
                           Examples.manifest_own) "42" eq_refl)).
  - refine (proj2 (proj2 (proj1 (selectors_return_map_entry [] []
                           (Examples.warm_state Examples.manifest_location)
                           Examples.manifest_7_own) "7" eq_refl)) _).
    vm_compute. intros Hin. discriminate Hin.
  - exact (proj1 (proj1 (proj2 (selectors_return_map_entry [] []
                           (Examples.warm_state Examples.cat_location)
                           Examples.root_own)) "cat" eq_refl)).
  - exact (proj1 (proj2 (proj1 (proj2 (selectors_return_map_entry [] []
                           (Examples.warm_state Examples.cat_location)
                           Examples.root_own)) "cat" eq_refl))).
  - refine (proj2 (proj2 (proj2 (proj2 (proj1 (proj2 (selectors_return_map_entry
                           [] [] (Examples.empty_state Examples.cat_location)
                           Examples.root_own)) "cat" eq_refl)))) _).
    apply not_elem_of_dom. reflexivity.
Defined.

Lemma selectors_pure_witness :
  (LandingPage.selector None
     (Examples.warm_state Examples.manifest_location) Examples.manifest_own).1
  = (LandingPage.selector
       (LandingPage.selector_cache_after
          [(Examples.empty_state Examples.root_location, Examples.root_own)])
       (Examples.warm_state Examples.cat_location) Examples.manifest_own).1
  /\ (SearchPageContainer.getState SearchPageContainer.cold
        (Examples.warm_state Examples.cat_location)).1
     = (SearchPageContainer.getState
          (SearchPageContainer.caches_after
             [Examples.empty_state Examples.cat_location])
          (Examples.warm_state Examples.cat_location)).1.
Proof.
  split.
  - exact (proj1 (selectors_pure []
                    [(Examples.empty_state Examples.root_location, Examples.root_own)]
                    [] []
                    (Examples.warm_state Examples.manifest_location)
                    (Examples.warm_state Examples.cat_location)
                    Examples.manifest_own Examples.manifest_own)
                 eq_refl eq_refl).
  - exact (proj1 (proj2 (proj2 (selectors_pure [] []
                    [] [Examples.empty_state Examples.cat_location]
                    (Examples.warm_state Examples.cat_location)
                    (Examples.warm_state Examples.cat_location)
                    Examples.root_own Examples.root_own)))
                 eq_refl eq_refl eq_refl).
Defined.

(** C7, the claim as stated, fails for [getState]: two states with the same
    query and the same entry of the search map under it, which differ in
    the path of the route, give two different outputs. *)
Lemma getState_depends_on_pathname :
  SearchPageContainer.getQuery (Examples.warm_state Examples.cat_location)
  = SearchPageContainer.getQuery (Examples.warm_state Examples.about_cat_location)
  /\ Map_get (search (Examples.warm_state Examples.cat_location)) (Some "cat")
     = Map_get (search (Examples.warm_state Examples.about_cat_location)) (Some "cat")
  /\ (SearchPageContainer.getState SearchPageContainer.cold
        (Examples.warm_state Examples.cat_location)).1
     <> (SearchPageContainer.getState SearchPageContainer.cold
           (Examples.warm_state Examples.about_cat_location)).1
  /\ SearchPageContainer.pathname
       (SearchPageContainer.getState SearchPageContainer.cold
          (Examples.warm_state Examples.cat_location)).1 = "/"
  /\ SearchPageContainer.pathname
       (SearchPageContainer.getState SearchPageContainer.cold
          (Examples.warm_state Examples.about_cat_location)).1 = "/about".
Proof.
  split; [reflexivity|]. split; [reflexivity|].
  split; [|split; vm_compute; reflexivity].
  intros Heq. apply (f_equal SearchPageContainer.pathname) in Heq.
  vm_compute in Heq. discriminate Heq.
Qed.

(** ** Placeholders for missing content *)

Section Placeholders.
Context {ManifestInfo ErrorInfo Manifest ImageResource : Type}.
Variable resolve : ImageResource -> Z -> option Thumbnail.ResolvedImage.

(** The thumbnail is its container, around one image or none. *)
Lemma Thumbnail_returns (src : Thumbnail.Src ImageResource) :
  exists children,
    Thumbnail.Thumbnail (ManifestInfo:=ManifestInfo) (ErrorInfo:=ErrorInfo)
      resolve src
    = Normal (div "search-result__item__thumbnail" children)
    /\ (children = [] \/ exists s, s <> EmptyString /\ children = [Img s]).
Proof.
  unfold Thumbnail.Thumbnail.
  destruct src as [s|o|]; simpl.
  - destruct (String.eqb s EmptyString) eqn:Hs; simpl; eexists; split; eauto.
    right. exists s. split; [|done]. by apply String.eqb_neq.
  - destruct (resolve o Thumbnail.MAX_THUMBNAIL_WIDTH) as [[[s|]]|]; simpl;
      try (eexists; split; eauto; fail).
    destruct (String.eqb s EmptyString) eqn:Hs; simpl; eexists; split; eauto.
    right. exists s. split; [|done]. by apply String.eqb_neq.
  - eexists; split; eauto.
Qed.

(** C9.  Missing content does not abort rendering.  The label of a cascade
    item returns normally for every input: the [Loading...] placeholder
    when the manifest is absent, the label otherwise.  The thumbnail returns
    normally for every input, with its container: when the source is not a
    string and no image URL is resolved for it (no resolved image, or one
    without URL), the container holds no image. *)
Theorem placeholders_for_missing_content :
  (forall props : ManifestCascadeItemLabel.Props Manifest,
     ManifestCascadeItemLabel.manifest props = None ->
     ManifestCascadeItemLabel.ManifestCascadeItemLabel
       (ManifestInfo:=ManifestInfo) (ErrorInfo:=ErrorInfo) props
     = Normal (div "manifest-cascade__item__label"
                 [Host "div" (Some "h4 text-center") [Text "Loading..."]]))
  /\ (forall (props : ManifestCascadeItemLabel.Props Manifest) manifest,
      ManifestCascadeItemLabel.manifest props = Some manifest ->
      ManifestCascadeItemLabel.ManifestCascadeItemLabel
        (ManifestInfo:=ManifestInfo) (ErrorInfo:=ErrorInfo) props
      = Normal (div "manifest-cascade__item__label"
                  [Host "div" (Some "h4") [Text "[Manifest things]"]]))
  /\ (forall src : Thumbnail.Src ImageResource,
      exists children,
        Thumbnail.Thumbnail (ManifestInfo:=ManifestInfo) (ErrorInfo:=ErrorInfo)
          resolve src
        = Normal (div "search-result__item__thumbnail" children)
        /\ (children = [] \/ exists s, s <> EmptyString /\ children = [Img s]))
  /\ (forall o,
      resolve o Thumbnail.MAX_THUMBNAIL_WIDTH = None
      \/ resolve o Thumbnail.MAX_THUMBNAIL_WIDTH = Some (Thumbnail.mkResolved None) ->
      Thumbnail.Thumbnail (ManifestInfo:=ManifestInfo) (ErrorInfo:=ErrorInfo)
        resolve (Thumbnail.SrcObject o)
      = Normal (div "search-result__item__thumbnail" []))
  /\ Thumbnail.Thumbnail (ManifestInfo:=ManifestInfo) (ErrorInfo:=ErrorInfo)
       resolve Thumbnail.SrcFalsy
     = Normal (div "search-result__item__thumbnail" []).
Proof.
  split; [|split; [|split; [|split]]].
  - intros props Hprops.
    unfold ManifestCascadeItemLabel.ManifestCascadeItemLabel. by rewrite Hprops.
  - intros props manifest Hprops.
    unfold ManifestCascadeItemLabel.ManifestCascadeItemLabel. by rewrite Hprops.
  - apply Thumbnail_returns.
  - intros o [Hnone|Hnourl]; unfold Thumbnail.Thumbnail; simpl.
    + by rewrite Hnone.
    + by rewrite Hnourl.
  - reflexivity.
Qed.

End Placeholders.

Lemma placeholders_for_missing_content_witness :
  ManifestCascadeItemLabel.ManifestCascadeItemLabel
    (ManifestInfo:=string) (ErrorInfo:=string)
    (ManifestCascadeItemLabel.mkProps (None : option string))
  = Normal (div "manifest-cascade__item__label"
              [Host "div" (Some "h4 text-center") [Text "Loading..."]])
  /\ Thumbnail.Thumbnail (ManifestInfo:=string) (ErrorInfo:=string)
       Examples.resolve_one (Thumbnail.SrcObject 0)
     = Normal (div "search-result__item__thumbnail" [])
  /\ Thumbnail.Thumbnail (ManifestInfo:=string) (ErrorInfo:=string)
       Examples.resolve_one (Thumbnail.SrcObject 2)
     = Normal (div "search-result__item__thumbnail" []).
Proof.
  split; [|split].
  - exact (proj1 (placeholders_for_missing_content
                    (ManifestInfo:=string) (ErrorInfo:=string) (Manifest:=string)
                    Examples.resolve_one)
                 (ManifestCascadeItemLabel.mkProps None) eq_refl).
  - exact (proj1 (proj2 (proj2 (proj2 (placeholders_for_missing_content
                    (ManifestInfo:=string) (ErrorInfo:=string) (Manifest:=string)
                    Examples.resolve_one))))
                 0 (or_introl eq_refl)).
  - exact (proj1 (proj2 (proj2 (proj2 (placeholders_for_missing_content
                    (ManifestInfo:=string) (ErrorInfo:=string) (Manifest:=string)
                    Examples.resolve_one))))
                 2 (or_intror eq_refl)).
Defined.

(** * Further properties of the containers *)

(** ** Sequencing of dispatching calls *)

Lemma appends_ret {A} (a : A) : appends (mret a : Dispatch A).
Proof. intros log. unfold mret, dispatch_ret. simpl. by rewrite app_nil_r. Qed.

Lemma appends_dispatch (a : Action) : appends (dispatch a).
Proof. intros log. reflexivity. Qed.

Lemma appends_bind {A B} (c : Dispatch A) (k : A -> Dispatch B) :
  appends c -> (forall a, appends (k a)) -> appends (c ≫= k).
Proof.
  intros Hc Hk log. unfold mbind, dispatch_mbind.
  rewrite (Hc log). simpl. rewrite (Hk _ (log ++ _)).
  destruct (c []) as [a l] eqn:Hrun. simpl.
  rewrite (Hk a l). simpl. by rewrite app_assoc.
Qed.

Lemma dispatched_bind {A B} (c : Dispatch A) (k : A -> Dispatch B) :
  (forall a, appends (k a)) ->
  dispatched (c ≫= k) = dispatched c ++ dispatched (k (c []).1).
Proof.
  intros Hk. unfold dispatched, mbind, dispatch_mbind.
  destruct (c []) as [a l]. simpl. by rewrite (Hk a l).
Qed.

Lemma result_bind {A B} (c : Dispatch A) (k : A -> Dispatch B) :
  (forall a, appends (k a)) ->
  ((c ≫= k) []).1 = (k (c []).1 []).1.
Proof.
  intros Hk. unfold mbind, dispatch_mbind.
  destruct (c []) as [a l]. simpl. by rewrite (Hk a l).
Qed.

(** ** Sequences of route updates of [LandingPage] *)

Section LandingUpdatesFacts.
Context {ManifestInfo ErrorInfo : Type}.
Implicit Types (this : LandingPage.This ManifestInfo ErrorInfo).
Implicit Types (nextProps : LandingPage.Props ManifestInfo ErrorInfo).
Implicit Types (updates : list (LandingPage.Props ManifestInfo ErrorInfo)).

Lemma componentWillReceiveProps_appends this nextProps :
  appends (LandingPage.componentWillReceiveProps this nextProps).
Proof.
  unfold LandingPage.componentWillReceiveProps, LandingPage._loadManifest.
  destruct (_ && _); [apply appends_dispatch|apply appends_ret].
Qed.

Lemma componentWillReceiveProps_dispatched this nextProps :
  dispatched (LandingPage.componentWillReceiveProps this nextProps)
  = ManifestRequest
      <$> LandingPageUpdates.newly_bound
            (LandingPageUpdates.props_id (LandingPage.props this))
            [LandingPageUpdates.props_id nextProps].
Proof.
  unfold LandingPage.componentWillReceiveProps, LandingPage._loadManifest.
  simpl. unfold LandingPageUpdates.props_id.
  by destruct (_ && _).
Qed.

Lemma receiveProps_appends this nextProps :
  appends (LandingPageUpdates.receiveProps this nextProps).
Proof.
  apply appends_bind; [apply componentWillReceiveProps_appends|].
  intros _. apply appends_ret.
Qed.

Lemma receiveAll_appends updates : forall this,
  appends (LandingPageUpdates.receiveAll this updates).
Proof.
  induction updates as [|nextProps rest IH]; intros this; simpl.
  - apply appends_ret.
  - apply appends_bind; [apply receiveProps_appends|done].
Qed.

Lemma receiveProps_result this nextProps :
  (LandingPageUpdates.receiveProps this nextProps []).1
  = LandingPage.mkThis nextProps (LandingPage.this_manifestRequest this).
Proof.
  unfold LandingPageUpdates.receiveProps.
  rewrite result_bind by (intros; apply appends_ret). reflexivity.
Qed.

Lemma receiveProps_dispatched this nextProps :
  dispatched (LandingPageUpdates.receiveProps this nextProps)
  = dispatched (LandingPage.componentWillReceiveProps this nextProps).
Proof.
  unfold LandingPageUpdates.receiveProps.
  rewrite dispatched_bind by (intros; apply appends_ret).
  unfold dispatched at 2. simpl. by rewrite app_nil_r.
Qed.

(** The requests of a sequence of updates, by the ids of the routes. *)
Lemma receiveAll_trace updates : forall this,
  dispatched (LandingPageUpdates.receiveAll this updates)
  = ManifestRequest
      <$> LandingPageUpdates.newly_bound
            (LandingPageUpdates.props_id (LandingPage.props this))
            (LandingPageUpdates.props_id <$> updates).
Proof.
  induction updates as [|nextProps rest IH]; intros this; [done|].
  cbn [LandingPageUpdates.receiveAll].
  rewrite dispatched_bind by (intros; apply receiveAll_appends).
  rewrite receiveProps_dispatched, receiveProps_result, IH.
  rewrite componentWillReceiveProps_dispatched.
  cbn [fmap list_fmap LandingPageUpdates.newly_bound LandingPage.props].
  by rewrite app_nil_r, fmap_app.
Qed.

Lemma newly_bound_present previous ids id :
  id ∈ LandingPageUpdates.newly_bound previous ids ->
  truthy id = true /\ id ∈ ids.
Proof.
  revert previous. induction ids as [|id0 rest IH]; intros previous; simpl.
  - by intros ?%elem_of_nil.
  - rewrite elem_of_app. intros [Hhead|Htail].
    + destruct (truthy id0 && strict_ne id0 previous) eqn:Hnew;
        [|by apply elem_of_nil in Hhead].
      apply list_elem_of_singleton in Hhead as ->.
      apply andb_true_iff in Hnew as [Hpresent _].
      split; [done|]. apply elem_of_cons. by left.
    + destruct (IH _ Htail) as [Hpresent Hin].
      split; [done|]. apply elem_of_cons. by right.
Qed.

Lemma newly_bound_length previous ids :
  length (LandingPageUpdates.newly_bound previous ids) <= length ids.
Proof.
  revert previous. induction ids as [|id0 rest IH]; intros previous; simpl; [done|].
  rewrite length_app. specialize (IH id0).
  destruct (truthy id0 && strict_ne id0 previous); simpl; lia.
Qed.

Lemma newly_bound_constant previous ids :
  Forall (fun id => id = previous) ids ->
  LandingPageUpdates.newly_bound previous ids = [].
Proof.
  induction 1 as [|id rest -> _ IH]; simpl; [done|].
  unfold strict_ne. rewrite bool_decide_eq_true_2 by done.
  by rewrite andb_false_r, IH.
Qed.

Lemma last_nonempty_default {A} (l : list A) (a d1 d2 : A) :
  List.last (a :: l) d1 = List.last (a :: l) d2.
Proof.
  revert a. induction l as [|b l IH]; intros a; [done|].
  change (List.last (b :: l) d1 = List.last (b :: l) d2). apply IH.
Qed.

(** X1.  Over a sequence of route updates of one [LandingPage] instance,
    the actions dispatched are exactly the load requests for the ids that
    are present and differ from the id of the update just before (for the
    first update, from the id the instance had), in the order of the
    updates; nothing else is dispatched, and the instance ends with the
    props of the last update. *)
Theorem receiveAll_requests this updates :
  dispatched (LandingPageUpdates.receiveAll this updates)
  = ManifestRequest
      <$> LandingPageUpdates.newly_bound
            (LandingPageUpdates.props_id (LandingPage.props this))
            (LandingPageUpdates.props_id <$> updates)
  /\ LandingPage.props (LandingPageUpdates.receiveAll this updates []).1
     = List.last updates (LandingPage.props this).
Proof.
  split; [apply receiveAll_trace|].
  revert this. induction updates as [|nextProps rest IH]; intros this; [done|].
  cbn [LandingPageUpdates.receiveAll].
  rewrite result_bind by (intros; apply receiveAll_appends).
  rewrite receiveProps_result, IH. simpl.
  destruct rest as [|p rest]; [done|]. apply last_nonempty_default.
Qed.

(** X2.  Route updates never dispatch for an absent id or for an id that no
    update carried, dispatch at most one action per update, and dispatch
    nothing at all while the manifest id stays what it was: an update of
    the other props, such as the resource arriving from the store, causes
    no request. *)
Theorem receiveAll_requests_bounded this updates :
  (forall a, a ∈ dispatched (LandingPageUpdates.receiveAll this updates) ->
     exists s, s <> EmptyString /\ a = ManifestRequest (Some s)
               /\ Some s ∈ LandingPageUpdates.props_id <$> updates)
  /\ length (dispatched (LandingPageUpdates.receiveAll this updates))
     <= length updates
  /\ (Forall (fun nextProps =>
                LandingPageUpdates.props_id nextProps
                = LandingPageUpdates.props_id (LandingPage.props this)) updates ->
      dispatched (LandingPageUpdates.receiveAll this updates) = []).
Proof.
  rewrite receiveAll_trace. split; [|split].
  - intros a (id & -> & Hid)%list_elem_of_fmap.
    apply newly_bound_present in Hid as [Hpresent Hin].
    apply truthy_true_iff in Hpresent as (s & -> & Hs). by exists s.
  - rewrite length_fmap.
    etrans; [apply newly_bound_length|]. by rewrite length_fmap.
  - intros Hsame. rewrite newly_bound_constant; [done|].
    by apply Forall_fmap.
Qed.

End LandingUpdatesFacts.

Lemma receiveAll_requests_bounded_witness :
  dispatched
    (LandingPageUpdates.receiveAll
       (Examples.landing_this Examples.manifest_own None)
       [LandingPage.mkProps Examples.manifest_own
          (LandingPage.mkStateProps (Some Examples.pending));
        LandingPage.mkProps Examples.manifest_own
          (LandingPage.mkStateProps (Some Examples.loaded))])
  = [].
Proof.
  refine (proj2 (proj2 (receiveAll_requests_bounded
                          (Examples.landing_this Examples.manifest_own None)
                          [LandingPage.mkProps Examples.manifest_own
                             (LandingPage.mkStateProps (Some Examples.pending));
                           LandingPage.mkProps Examples.manifest_own
                             (LandingPage.mkStateProps (Some Examples.loaded))]))
                _).
  repeat constructor.
Defined.

(** ** Changes of the search input *)

Section SearchChanges.
Context {SearchResult ErrorInfo : Type}.
Implicit Types
  (events : list (SearchPageContainer.Props SearchResult ErrorInfo * string)).

Lemma loadQuery_appends
    (this : SearchPageContainer.Props SearchResult ErrorInfo)
    (query : option string) :
  appends (SearchPageContainer._loadQuery this query).
Proof.
  unfold SearchPageContainer._loadQuery.
  destruct (negb (truthy query)); [apply appends_dispatch|].
  apply appends_bind; [apply appends_dispatch|].
  intros _. apply appends_dispatch.
Qed.

Lemma changes_appends events : appends (SearchPageRender.changes events).
Proof.
  induction events as [|[this v] rest IH]; simpl.
  - apply appends_ret.
  - apply appends_bind; [apply loadQuery_appends|done].
Qed.

(** The actions of a sequence of changes, change by change. *)
Lemma changes_trace events :
  dispatched (SearchPageRender.changes events)
  = flat_map SearchPageRender.change_actions events.
Proof.
  induction events as [|[this v] rest IH]; [done|].
  cbn [SearchPageRender.changes flat_map].
  rewrite dispatched_bind by (intros; apply changes_appends).
  rewrite IH. f_equal. simpl.
  rewrite SearchPageContainer_loadQuery_dispatched. simpl.
  by destruct (String.eqb v EmptyString).
Qed.

(** X3.  Over a sequence of changes of the search input, every change
    dispatches a replacement of the location on the path of the props of
    the moment, and every change to a non-empty value dispatches, right
    after it, the search request for that value.  So the search requests
    are the non-empty values typed, in order and with their repetitions:
    nothing is skipped because it was asked before. *)
Theorem changes_requests events :
  dispatched (SearchPageRender.changes events)
  = flat_map SearchPageRender.change_actions events
  /\ load_requests (SearchPageRender.changes events)
     = (fun v => SearchRequest (Some v))
         <$> filter (fun v => v <> EmptyString) (snd <$> events)
  /\ length (filter (fun a => is_load_request a = false)
               (dispatched (SearchPageRender.changes events)))
     = length events.
Proof.
  split; [apply changes_trace|]. unfold load_requests.
  rewrite changes_trace.
  split.
  - induction events as [|[this v] rest IH]; [done|].
    cbn [flat_map fmap list_fmap snd]. rewrite filter_app, IH.
    rewrite filter_cons. unfold SearchPageRender.change_actions.
    destruct (String.eqb v EmptyString) eqn:Hv.
    + apply String.eqb_eq in Hv. rewrite decide_False by (by intros []).
      done.
    + apply String.eqb_neq in Hv. rewrite decide_True by done. done.
  - induction events as [|[this v] rest IH]; [done|].
    cbn [flat_map]. rewrite filter_app, length_app, IH.
    unfold SearchPageRender.change_actions.
    by destruct (String.eqb v EmptyString).
Qed.

(** X4.  A search request is never dispatched on its own: in the actions
    of any sequence of changes of the input, each search request comes
    right after the replacement of the location that carries the same
    query, and the query of a search request is never empty. *)
Theorem changes_normalise_before_request events before after query :
  dispatched (SearchPageRender.changes events)
  = before ++ SearchRequest query :: after ->
  exists earlier path v,
    before = earlier ++ [ReplaceState path (Some (Route.mkQuery query None))]
    /\ query = Some v /\ v <> EmptyString.
Proof.
  rewrite changes_trace. revert before.
  induction events as [|[this v] rest IH]; intros before; cbn [flat_map].
  - intros Hnil. by destruct before.
  - unfold SearchPageRender.change_actions at 1.
    destruct (String.eqb v EmptyString) eqn:Hv.
    + destruct before as [|a before]; [done|].
      intros [= <- Hrest]. destruct (IH _ Hrest) as (earlier & path & v' & -> & ?).
      by exists (ReplaceState (SearchPageContainer.pathname this) None :: earlier),
        path, v'.
    + apply String.eqb_neq in Hv.
      destruct before as [|a [|b before]].
      * done.
      * intros [= <- <- Hrest].
        by exists [], (SearchPageContainer.pathname this), v.
      * intros [= <- <- Hrest].
        destruct (IH _ Hrest) as (earlier & path & v' & -> & ?).
        by exists (ReplaceState (SearchPageContainer.pathname this)
                     (Some (Route.mkQuery (Some v) None))
                   :: SearchRequest (Some v) :: earlier), path, v'.
Qed.

End SearchChanges.

Lemma changes_normalise_before_request_witness :
  exists earlier path v,
    [ReplaceState "/" None;
     ReplaceState "/" (Some (Route.mkQuery (Some "cat") None))]
    = earlier ++ [ReplaceState path (Some (Route.mkQuery (Some "cat") None))]
    /\ Some "cat" = Some v /\ v <> EmptyString.
Proof.
  exact (changes_normalise_before_request
           [(SearchPageContainer.mkProps None (None : option (AsyncResource string string)) "/",
             EmptyString);
            (SearchPageContainer.mkProps None None "/", "cat")]
           [ReplaceState "/" None;
            ReplaceState "/" (Some (Route.mkQuery (Some "cat") None))]
           [] (Some "cat") eq_refl).
Defined.

(** ** The image of a thumbnail *)

Section ThumbnailImage.
Context {ManifestInfo ErrorInfo ImageResource : Type}.
Implicit Types (resolve : ImageResource -> Z -> option Thumbnail.ResolvedImage).
Implicit Types (src : Thumbnail.Src ImageResource).

(** X5.  The thumbnail shows the image [s] exactly when [s] is not empty
    and is either the source itself, a string, or the URL resolved for the
    source, an image resource, at the maximal width of 100; in every other
    case it shows no image.  The resolver is asked at that width only: two
    resolvers that agree there give the same thumbnail. *)
Theorem Thumbnail_image resolve src :
  (forall s,
     Thumbnail.Thumbnail (ManifestInfo:=ManifestInfo) (ErrorInfo:=ErrorInfo)
       resolve src
     = Normal (div "search-result__item__thumbnail" [Img s])
     <-> s <> EmptyString
         /\ (src = Thumbnail.SrcString s
             \/ exists o, src = Thumbnail.SrcObject o
                          /\ resolve o 100%Z
                             = Some (Thumbnail.mkResolved (Some s))))
  /\ ((forall s,
         Thumbnail.Thumbnail (ManifestInfo:=ManifestInfo) (ErrorInfo:=ErrorInfo)
           resolve src
         <> Normal (div "search-result__item__thumbnail" [Img s]))
      -> Thumbnail.Thumbnail (ManifestInfo:=ManifestInfo) (ErrorInfo:=ErrorInfo)
           resolve src
         = Normal (div "search-result__item__thumbnail" []))
  /\ (forall resolve',
        (forall o, resolve o 100%Z = resolve' o 100%Z) ->
        Thumbnail.Thumbnail (ManifestInfo:=ManifestInfo) (ErrorInfo:=ErrorInfo)
          resolve src
        = Thumbnail.Thumbnail resolve' src).
Proof.
  unfold Thumbnail.Thumbnail, Thumbnail.MAX_THUMBNAIL_WIDTH.
  split; [|split].
  - intros s. destruct src as [s0|o|]; simpl.
    + destruct (String.eqb s0 EmptyString) eqn:Hs0; simpl.
      * apply String.eqb_eq in Hs0. subst s0. split; [done|].
        intros [Hs [[= <-]|(o & ? & _)]]; done.
      * apply String.eqb_neq in Hs0. split.
        -- intros [= ->]. split; [done|by left].
        -- intros [_ [[= ->]|(o & ? & _)]]; done.
    + destruct (resolve o 100%Z) as [[[s0|]]|] eqn:Hres; simpl.
      * destruct (String.eqb s0 EmptyString) eqn:Hs0; simpl.
        -- apply String.eqb_eq in Hs0. subst s0. split; [done|].
           intros [Hs [?|(o' & [= <-] & Hres')]]; [done|].
           rewrite Hres in Hres'. by injection Hres' as <-.
        -- apply String.eqb_neq in Hs0. split.
           ++ intros [= ->]. split; [done|]. right. by exists o.
           ++ intros [_ [?|(o' & [= <-] & Hres')]]; [done|].
              rewrite Hres in Hres'. by injection Hres' as <-.
      * split; [done|].
        intros [_ [?|(o' & [= <-] & Hres')]]; [done|].
        by rewrite Hres in Hres'.
      * split; [done|].
        intros [_ [?|(o' & [= <-] & Hres')]]; [done|].
        by rewrite Hres in Hres'.
    + split; [done|]. intros [_ [?|(o & ? & _)]]; done.
  - intros Hnone. destruct src as [s0|o|]; simpl in *.
    + destruct (String.eqb s0 EmptyString); simpl in *; [done|].
      by destruct (Hnone s0).
    + destruct (resolve o 100%Z) as [[[s0|]]|]; simpl in *; try done.
      destruct (String.eqb s0 EmptyString); simpl in *; [done|].
      by destruct (Hnone s0).
    + done.
  - intros resolve' Hagree. destruct src as [s0|o|]; simpl; try done.
    by rewrite Hagree.
Qed.

End ThumbnailImage.

Lemma Thumbnail_image_witness :
  Thumbnail.Thumbnail (ManifestInfo:=string) (ErrorInfo:=string)
    Examples.resolve_one (Thumbnail.SrcObject 1)
  = Normal (div "search-result__item__thumbnail"
              [Img "https://example.org/1/full/100,/0/default.jpg"]).
Proof.
  refine (proj2 (proj1 (Thumbnail_image (ManifestInfo:=string) (ErrorInfo:=string)
                          Examples.resolve_one (Thumbnail.SrcObject 1))
                   "https://example.org/1/full/100,/0/default.jpg")
                (conj _ (or_intror (ex_intro _ 1 (conj eq_refl eq_refl))))).
  discriminate.
Defined.

(** ** What the landing page hands to its children *)

Section LandingChildren.
Context {ManifestInfo SearchResult ErrorInfo : Type}.
Context `{RefEq (gmap string (AsyncResource ManifestInfo ErrorInfo))}.
Implicit Types (state : State ManifestInfo SearchResult ErrorInfo).
Implicit Types (own : LandingPage.OwnProps).
Implicit Types
  (calls : list (State ManifestInfo SearchResult ErrorInfo * LandingPage.OwnProps)).

(** The props of the connected component: those of the router, and the
    entry of the manifests under the id of the route. *)
Lemma connect_props calls state log own :
  (LandingPage.connect
     (LandingPage.mkWorld state log (LandingPage.selector_cache_after calls))
     own).1
  = LandingPage.mkProps own
      (LandingPage.mkStateProps
         (Map_get (manifests state) (Route.manifestId (LandingPage.params own)))).
Proof.
  unfold LandingPage.connect; simpl.
  pose proof (selector_spec calls state own) as Hsel.
  destruct (LandingPage.selector _ state own) as [sp cache']; simpl in *.
  by subst sp.
Qed.

#[local] Set Warnings "-clear-no-such-hyp".

Ltac list_membership :=
  repeat (rewrite elem_of_cons || rewrite elem_of_nil); naive_solver.

(** X6.  In the page that the connected [LandingPage] renders, a
    [ManifestDisplay] element occurs exactly when the route binds a manifest
    id, and then it carries that id and the entry of the store's manifests
    under that very id, never the resource of another manifest.  The helper
    that invites to click on a result occurs exactly when [q] or [m] is
    present and no id is bound; the search results occur exactly when [q]
    or [m] is present, and they and the navigation bar are given the
    location of the route. *)
Theorem render_children calls state log own :
  let this :=
    LandingPage.instantiate
      (LandingPage.connect
         (LandingPage.mkWorld state log (LandingPage.selector_cache_after calls))
         own).1 in
  let page := LandingPage.render this in
  let id := Route.manifestId (LandingPage.params own) in
  let searching :=
    truthy (Route.q (Route.query (LandingPage.location own)))
    || truthy (Route.m (Route.query (LandingPage.location own))) in
  (forall manifestRequest manifestId,
     ManifestDisplayEl manifestRequest manifestId ∈ descendants page
     <-> truthy id = true /\ manifestId = id
         /\ manifestRequest = Map_get (manifests state) id)
  /\ (click_helper ∈ descendants page
      <-> searching = true /\ truthy id = false)
  /\ (forall l, SearchResultsEl l ∈ descendants page
      <-> searching = true /\ l = LandingPage.location own)
  /\ (forall l, NavbarEl l ∈ descendants page <-> l = LandingPage.location own).
Proof.
  intros this page id searching. subst this page searching.
  rewrite connect_props.
  unfold LandingPage.render, LandingPage._renderResults,
    LandingPage._renderLanding, LandingPage._renderManifest, click_helper.
  cbn [LandingPage.instantiate LandingPage.props LandingPage.ownProps
       LandingPage.stateProps LandingPage.manifestRequest].
  fold id.
  destruct (truthy (Route.q (Route.query (LandingPage.location own)))),
    (truthy (Route.m (Route.query (LandingPage.location own)))),
    (truthy id); cbn;
    (split; [|split; [|split]]); intros; list_membership.
Qed.

End LandingChildren.

(** ** The detail view of a mounted landing page *)

Section LandingDetail.
Context {ManifestInfo SearchResult ErrorInfo : Type}.
Context `{RefEq (gmap string (AsyncResource ManifestInfo ErrorInfo))}.
Implicit Types (state : State ManifestInfo SearchResult ErrorInfo).
Implicit Types (own : LandingPage.OwnProps).
Implicit Types
  (calls : list (State ManifestInfo SearchResult ErrorInfo * LandingPage.OwnProps)).

(** X7.  For [LandingPage] connected to a store and mounted on a route:
    without a manifest id nothing is requested and no detail view is
    rendered, whatever the store holds; with an id for which the store has
    no entry, the request for that id is the one action dispatched and the
    detail view is the loading placeholder; with an id whose entry is in
    ERROR, the detail view is the error display that carries that entry's
    error; with an id whose entry is not in ERROR, the detail view is the
    viewer of the entry's value when it holds one and the loading
    placeholder when it holds none. *)
Theorem mounted_detail_view calls state log own :
  let w :=
    LandingPage.mkWorld state log (LandingPage.selector_cache_after calls) in
  let this := LandingPage.instantiate (LandingPage.connect w own).1 in
  let id := Route.manifestId (LandingPage.params own) in
  (id = None \/ id = Some EmptyString ->
   dispatched (LandingPage.mount w own) = []
   /\ LandingPageUpdates.detail_view this = None)
  /\ (forall key, id = Some key -> key <> EmptyString ->
      manifests state !! key = None ->
      dispatched (LandingPage.mount w own) = [ManifestRequest (Some key)]
      /\ LandingPageUpdates.detail_view this
         = Some (Host "div" (Some "container")
                   [Host "p" None [Text "Loading..."]]))
  /\ (forall key r, id = Some key -> key <> EmptyString ->
      manifests state !! key = Some r -> status r = ERROR ->
      LandingPageUpdates.detail_view this
      = Some (Host "div" (Some "container") [ErrorAlertEl (error r)]))
  /\ (forall key r v, id = Some key -> key <> EmptyString ->
      manifests state !! key = Some r -> status r <> ERROR ->
      value r = Some v ->
      LandingPageUpdates.detail_view this = Some (ManifestViewerEl v))
  /\ (forall key r, id = Some key -> key <> EmptyString ->
      manifests state !! key = Some r -> status r <> ERROR ->
      value r = None ->
      LandingPageUpdates.detail_view this
      = Some (Host "div" (Some "container")
                [Host "p" None [Text "Loading..."]])).
Proof.
  intros w this id. subst w this.
  rewrite LandingPage_mount_dispatched, connect_props. fold id.
  unfold LandingPageUpdates.detail_view, LandingPage._renderManifest.
  cbn [LandingPage.instantiate LandingPage.props LandingPage.ownProps
       LandingPage.stateProps LandingPage.manifestRequest].
  fold id.
  assert (forall key, key <> EmptyString -> truthy (Some key) = true) as Hkey
    by (intros key Hne; apply truthy_true_iff; eauto).
  split; [|split; [|split; [|split]]].
  - intros Habsent. apply truthy_false_iff in Habsent. by rewrite Habsent.
  - intros key -> Hne Hnone. rewrite (Hkey key Hne). simpl. by rewrite Hnone.
  - intros key r -> Hne Hsome Herr. rewrite (Hkey key Hne). simpl.
    rewrite Hsome. unfold ManifestDisplay.render. simpl. by rewrite Herr.
  - intros key r v -> Hne Hsome Herr Hv. rewrite (Hkey key Hne). simpl.
    rewrite Hsome. unfold ManifestDisplay.render. simpl.
    by rewrite bool_decide_eq_false_2, Hv.
  - intros key r -> Hne Hsome Herr Hv. rewrite (Hkey key Hne). simpl.
    rewrite Hsome. unfold ManifestDisplay.render. simpl.
    by rewrite bool_decide_eq_false_2, Hv.
Qed.

End LandingDetail.

Lemma mounted_detail_view_witness :
  (dispatched (LandingPage.mount Examples.manifest_fresh_world Examples.manifest_own)
   = [ManifestRequest (Some "42")]
   /\ LandingPageUpdates.detail_view
        (LandingPage.instantiate
           (LandingPage.connect Examples.manifest_fresh_world Examples.manifest_own).1)
      = Some (Host "div" (Some "container") [Host "p" None [Text "Loading..."]]))
  /\ LandingPageUpdates.detail_view
       (LandingPage.instantiate
          (LandingPage.connect Examples.manifest_cached_world Examples.manifest_own).1)
     = Some (ManifestViewerEl "manifest 42")
  /\ LandingPageUpdates.detail_view
       (LandingPage.instantiate
          (LandingPage.connect Examples.manifest_failed_world Examples.manifest_own).1)
     = Some (Host "div" (Some "container") [ErrorAlertEl (Some "not found")]).
Proof.
  split; [|split].
  - refine (proj1 (proj2 (mounted_detail_view []
                            (Examples.empty_state Examples.manifest_location)
                            [] Examples.manifest_own))
                  "42" eq_refl _ eq_refl).
    discriminate.
  - refine (proj1 (proj2 (proj2 (proj2 (mounted_detail_view []
                            (Examples.warm_state Examples.manifest_location)
                            [] Examples.manifest_own))))
                  "42" Examples.loaded "manifest 42" eq_refl _ eq_refl _ eq_refl);
      discriminate.
  - refine (proj1 (proj2 (proj2 (mounted_detail_view []
                            (Examples.failed_state Examples.manifest_location)
                            [] Examples.manifest_own)))
                  "42" Examples.failed eq_refl _ eq_refl eq_refl).
    discriminate.
Defined.

(** ** What the search page shows *)

Section SearchPageFacts.
Context {ManifestInfo SearchResult ErrorInfo : Type}.
Context `{RefEq (gmap string (AsyncResource SearchResult ErrorInfo))}.
Context `{RefEq (option (AsyncResource SearchResult ErrorInfo))}.
Implicit Types (state : State ManifestInfo SearchResult ErrorInfo).
Implicit Types (calls : list (State ManifestInfo SearchResult ErrorInfo)).

Lemma search_connect_props calls state log :
  (SearchPageContainer.connect
     (SearchPageContainer.mkWorld state log
        (SearchPageContainer.caches_after calls))).1
  = SearchPageContainer.mkProps
      (SearchPageContainer.getQuery state)
      (Map_get (search state) (SearchPageContainer.getQuery state))
      (Route.pathname (Route.location (router state))).
Proof.
  unfold SearchPageContainer.connect; simpl.
  pose proof (getState_spec calls state) as Hprops.
  destruct (SearchPageContainer.getState _ state) as [p caches']; simpl in *.
  by subst p.
Qed.

(** X8.  The search page connected to a store shows one query throughout:
    the input and the list of results are given the query of the route,
    [state.router.location.query.q], and the results given to the list are
    the store's entry under that query (none when the store has none,
    whatever it holds for other queries).  A change of the input to [v]
    replaces the location on the path of the current route,
    [state.router.location.pathname], without query when [v] is empty, and
    with [q = v] followed by the search request for [v] otherwise. *)
Theorem search_page_render calls
    (stored : gmap string (AsyncResource ManifestInfo ErrorInfo))
    (found : gmap string (AsyncResource SearchResult ErrorInfo))
    (path : string) (route_q route_m : option string) log :
  let state :=
    mkState stored found
      (Route.mkRouter (Route.mkLocation path (Route.mkQuery route_q route_m))) in
  let this :=
    (SearchPageContainer.connect
       (SearchPageContainer.mkWorld state log
          (SearchPageContainer.caches_after calls))).1 in
  let page := SearchPageRender.render this in
  SearchPageRender.input_query (SearchPageRender.searchInput page) = route_q
  /\ SearchPageRender.list_query (SearchPageRender.searchResultList page) = route_q
  /\ SearchPageRender.list_results (SearchPageRender.searchResultList page)
     = match route_q with
       | Some key => found !! key
       | None => None
       end
  /\ (forall v,
      dispatched
        (SearchPageRender.onChange (SearchPageRender.searchInput page)
           (SearchPageRender.mkChangeEvent v))
      = if String.eqb v EmptyString
        then [ReplaceState path None]
        else [ReplaceState path (Some (Route.mkQuery (Some v) None));
              SearchRequest (Some v)]).
Proof.
  intros state this page. subst this page.
  rewrite search_connect_props. subst state.
  repeat split. intros v. simpl.
  rewrite SearchPageContainer_loadQuery_dispatched. simpl.
  by destruct (String.eqb v EmptyString).
Qed.

End SearchPageFacts.

(** ** The inputs of each render path of [ManifestDisplay] *)

Section ManifestDisplayPartition.
Context {ManifestInfo ErrorInfo : Type}.
Implicit Types (props : ManifestDisplay.Props ManifestInfo ErrorInfo).


End ManifestDisplayPartition.

Lemma search_page_render_witness :
  SearchPageRender.input_query
    (SearchPageRender.searchInput
       (SearchPageRender.render
          (SearchPageContainer.connect Examples.cat_cached_world).1))
  = Some "cat"
  /\ SearchPageRender.list_results
       (SearchPageRender.searchResultList
          (SearchPageRender.render
             (SearchPageContainer.connect Examples.cat_cached_world).1))
     = Some Examples.loaded
  /\ SearchPageRender.list_results
       (SearchPageRender.searchResultList
          (SearchPageRender.render
             (SearchPageContainer.connect Examples.cat_fresh_world).1))
     = None.
Proof.
  split; [|split].
  - exact (proj1 (search_page_render (ManifestInfo:=string) []
                    {[ "42" := Examples.loaded ]} {[ "cat" := Examples.loaded ]}
                    "/" (Some "cat") None [])).
  - exact (proj1 (proj2 (proj2 (search_page_render (ManifestInfo:=string) []
                    {[ "42" := Examples.loaded ]} {[ "cat" := Examples.loaded ]}
                    "/" (Some "cat") None [])))).
  - exact (proj1 (proj2 (proj2 (search_page_render (ManifestInfo:=string) []
                    (∅ : gmap string (AsyncResource string string))
                    (∅ : gmap string (AsyncResource string string))
                    "/" (Some "cat") None [])))).
Defined.
